(** * Glitter flake BxDF (src/materials/glitter.cpp)

    A shallow embedding of the discrete/continuous microfacet scattering
    model [flakeBxDF] and of the helpers it is built from, followed by the
    properties of the model.

    Numbers.  The C++ code computes on [float]/[double].  The embedding is
    written once over an interface [Scalar] of the operations the code uses
    (arithmetic, |x|, sqrt, sin, cos, acos, the three comparisons and the
    conversion from [int]); nothing is assumed about them, so every theorem
    of the section [GenericFacts] holds for IEEE arithmetic with its NaN as
    well.  [float] and [double] are not told apart.  Theorems that need the
    laws of arithmetic are proved for the instance [RScalar], exact real
    arithmetic, in which rounding, overflow and NaN do not exist; they say
    so.  [Binary32CosScalar] differs from it by the rounding of the cosine
    near 0 and shows where such a theorem stops holding for the program.

    Randomness.  [rand()] reads and advances a hidden global generator.  It
    is modelled by a fixed, arbitrary stream [draws : nat -> Z] of the
    integers it returns and by an explicit position in that stream, threaded
    through every function that draws. *)

From Stdlib Require Import ZArith List Bool Lia.
From Stdlib Require Import Reals Lra Psatz.
Import ListNotations.

Set Implicit Arguments.

(** ** Scalars *)

Class Scalar (F : Type) : Type := {
  of_Z  : Z -> F;                (* conversion from int, and integer literals *)
  fadd  : F -> F -> F;
  fsub  : F -> F -> F;
  fmul  : F -> F -> F;
  fdiv  : F -> F -> F;
  fneg  : F -> F;                (* unary minus *)
  fabs  : F -> F;
  fsqrt : F -> F;
  fsin  : F -> F;
  fcos  : F -> F;
  facos : F -> F;
  feqb  : F -> F -> bool;        (* ==  ; x != y is its negation *)
  fltb  : F -> F -> bool;        (* <   ; x > y is y < x *)
  fleb  : F -> F -> bool         (* <=  ; x >= y is y <= x *)
}.

Declare Scope scalar_scope.
Delimit Scope scalar_scope with sc.
Infix "+" := fadd : scalar_scope.
Infix "-" := fsub : scalar_scope.
Infix "*" := fmul : scalar_scope.
Infix "/" := fdiv : scalar_scope.
Notation "x == y" := (feqb x y) (at level 70, no associativity) : scalar_scope.
Notation "x != y" := (negb (feqb x y)) (at level 70, no associativity) : scalar_scope.
Notation "x <? y" := (fltb x y) : scalar_scope.
Notation "x >? y" := (fltb y x) : scalar_scope.
Notation "x <=? y" := (fleb x y) : scalar_scope.
Notation "x >=? y" := (fleb y x) : scalar_scope.
Notation "# z" := (of_Z z) (at level 9, format "# z") : scalar_scope.

(** ** Vectors, points and spectra *)

Record Vector3 (F : Type) : Type := Vec { vx : F; vy : F; vz : F }.

Record Point2 (F : Type) : Type := Pt2 { px : F; py : F }.

(** Modelled from the spec: the renderer's [Spectrum] type (core/spectrum.h
    is not part of the sources) is, in the words of the specification, an
    additive/multiplicative value type constructible from an RGB triple; it
    is taken to be the RGB triple itself with component-wise operations. *)
Record Spectrum (F : Type) : Type := RGB { sr : F; sg : F; sb : F }.

Arguments Vec {F} _ _ _.
Arguments Pt2 {F} _ _.
Arguments RGB {F} _ _ _.

(** The state of the global generator: the position of the next draw. *)
Definition Rng : Type := nat.

(** What the code takes from its environment: the C library's [RAND_MAX]
    and the integers [rand()] returns, in order; and the two tint sources of
    materials/sampleHSL.h (not part of the sources), of which the first may
    draw from the generator and the second is a constant. *)
Class Env (F : Type) : Type := {
  RAND_MAX      : Z;
  draws         : nat -> Z;
  SampleFromHSL : Rng -> Vector3 F * Rng;
  AverageColor  : Vector3 F
}.

Section Generic.

Context {F : Type} {SF : Scalar F} {E : Env F}.

Local Open Scope scalar_scope.

Abbreviation V3 := (Vector3 F).
Abbreviation Spec := (Spectrum F).

(** *** Geometry helpers of the renderer (core/geometry.h, core/reflection.h) *)

(** Modelled from the spec: the vector helpers below are the renderer's, not
    defined in glitter.cpp; they follow the specification's vocabulary (dot
    product, normalisation, reflection of [wo] about a normal, same
    hemisphere with respect to the z axis, |z| as the cosine to the normal)
    in the renderer's usual definitions. *)
Definition Dot (a b : V3) : F :=
  vx a * vx b + vy a * vy b + vz a * vz b.

Definition vadd (a b : V3) : V3 :=
  Vec (vx a + vx b) (vy a + vy b) (vz a + vz b).

Definition vscale (a : V3) (k : F) : V3 :=
  Vec (vx a * k) (vy a * k) (vz a * k).

Definition vneg (a : V3) : V3 :=
  Vec (fneg (vx a)) (fneg (vy a)) (fneg (vz a)).

Definition Length (a : V3) : F := fsqrt (Dot a a).

Definition Normalize (a : V3) : V3 := vscale a (#1 / Length a).

Definition Reflect (wo n : V3) : V3 :=
  vadd (vneg wo) (vscale n (#2 * Dot wo n)).

Definition SameHemisphere (w wp : V3) : bool := vz w * vz wp >? #0.

Definition AbsCosTheta (w : V3) : F := fabs (vz w).

Definition sZero : Spec := RGB #0 #0 #0.

Definition smul (a b : Spec) : Spec :=
  RGB (sr a * sr b) (sg a * sg b) (sb a * sb b).

Definition sscale (a : Spec) (k : F) : Spec :=
  RGB (sr a * k) (sg a * k) (sb a * k).

Definition sdiv (a : Spec) (k : F) : Spec :=
  RGB (sr a / k) (sg a / k) (sb a / k).

(** [Spectrum::IsBlack]: every component is zero. *)
Definition IsBlack (a : Spec) : bool :=
  (sr a == #0) && (sg a == #0) && (sb a == #0).

(** *** The generator *)

(** [#define PI 3.14159265] *)
Definition PI : F := #314159265 / #100000000.

Definition rand (s : Rng) : Z * Rng := (draws s, S s).

Definition RandomFloat (a b : F) (s : Rng) : F * Rng :=
  let '(k, s) := rand s in
  let random := #k / #RAND_MAX in
  let diff := b - a in
  let r := random * diff in
  (a + r, s).

Definition RandomVector (s : Rng) : V3 * Rng :=
  let '(phi, s) := RandomFloat #0 (PI * #2) s in
  let '(costheta, s) := RandomFloat #(-1) #1 s in
  let theta := facos costheta in
  let x := fsin theta * fcos phi in
  let y := fsin theta * fsin phi in
  let z := fcos theta in
  (Vec x y z, s).

(** *** The reflection cache *)

(** The four vectors [CreateReflectionCache] fills (its reference
    parameters). *)
Record Cache : Type := mkCache {
  normals : list V3;
  rcache  : list V3;
  weights : list F;
  ctable  : list F
}.

Definition emptyCache : Cache := mkCache [] [] [] [].

(** One iteration of the loop: the new entry and its weight. *)
Definition cache_entry (wo : V3) (s : Rng) : V3 * V3 * F * Rng :=
  let '(v, s) := RandomVector s in
  let m := Normalize v in
  let r := Reflect wo m in
  let r := if negb (SameHemisphere wo r) then vscale r #(-1) else r in
  let w := fabs (Dot m r) in
  (m, r, w, s).

(** The loop [for (i = 0; i < n; i++)], [k] iterations left, with the running
    sum [c]. *)
Fixpoint cache_loop (k : nat) (wo : V3) (c : F) (ch : Cache) (s : Rng)
  : Cache * Rng :=
  match k with
  | O => (ch, s)
  | S k' =>
      let '(m, r, w, s) := cache_entry wo s in
      let c := c + w in
      cache_loop k' wo c
        (mkCache (normals ch ++ [m]) (rcache ch ++ [r])
                 (weights ch ++ [w]) (ctable ch ++ [c])) s
  end.

Definition CreateReflectionCache (wo : V3) (ch : Cache) (n : Z) (s : Rng)
  : Cache * Rng :=
  let c := #0 in
  let ch := mkCache (normals ch) (rcache ch) (weights ch) (ctable ch ++ [c]) in
  cache_loop (Z.to_nat n) wo c ch s.

(** *** The density estimator *)

Definition vzero : V3 := Vec #0 #0 #0.

(** [v[i]] for an [int] index; the callers below index inside the vectors
    (lemma [CreateReflectionCache_lengths]). *)
Definition at_ {A : Type} (l : list A) (i : Z) (d : A) : A :=
  nth (Z.to_nat i) l d.

(** The loop of [CalculateDistribution]: [k] iterations left, at index [i]. *)
Fixpoint dist_loop (k : nat) (wi : V3) (ws : list F) (rc : list V3)
    (gamma : F) (i : Z) (D : F) : F :=
  match k with
  | O => D
  | S k' =>
      let D := if Dot wi (at_ rc i vzero) >=? fcos gamma
               then D + at_ ws i #0 else D in
      dist_loop k' wi ws rc gamma (i + 1)%Z D
  end.

(** Returns the pair [DK[0], DK[1]]. *)
Definition CalculateDistribution (wi : V3) (ws : list F) (rc : list V3)
    (n : Z) (gamma : F) : F * F :=
  let D := #0 in
  let N := 100000000%Z in
  let D := dist_loop (Z.to_nat n) wi ws rc gamma 0%Z D in
  (D / #N, D).

(** *** The cache search *)

(** The [while (start <= end)] loop; [None] when the loop is still running
    after [fuel] iterations. *)
Fixpoint bs_loop (fuel : nat) (cache : list V3) (ct : list F) (value : F)
    (start end_ : Z) : option V3 :=
  match fuel with
  | O => None
  | S fuel' =>
      if (start <=? end_)%Z then
        let middle := (start + Z.quot (end_ - start) 2)%Z in
        if (at_ ct start #0 <? value) && (at_ ct (start + 1) #0 >=? value)
        then Some (at_ cache start vzero)
        else if at_ ct middle #0 >=? value
        then bs_loop fuel' cache ct value start middle
        else bs_loop fuel' cache ct value middle end_
      else Some vzero
  end.

Definition BinarySearch (fuel : nat) (cache : list V3) (ct : list F)
    (value : F) (n : Z) : option V3 :=
  bs_loop fuel cache ct value 0%Z n.

(** *** The cone rejection sampler *)

(** The [while (true)] loop; [None] when no draw was accepted within [fuel]
    iterations. *)
Fixpoint GenerateBRDFi (fuel : nat) (r : V3) (gamma : F) (s : Rng)
  : option (V3 * Rng) :=
  match fuel with
  | O => None
  | S fuel' =>
      let '(i, s) := RandomVector s in
      let i := Normalize i in
      if Dot i r >=? fcos gamma then Some (i, s)
      else GenerateBRDFi fuel' r gamma s
  end.

(** *** The scattering model *)

(** The data members of [flakeBxDF].  The Fresnel model and the continuous
    microfacet distribution are external collaborators ([fresnel->Evaluate],
    [distribution->D], [->G], [->Sample_wh], [->Pdf]): any functions. *)
Record flakeBxDF : Type := mkBxDF {
  R_               : Spec;   (* the reflectance [R] *)
  flakenumber      : Z;
  gamma            : F;
  area_A           : F;
  fresnel_Evaluate : F -> Spec;
  distribution_D   : V3 -> F;
  distribution_G   : V3 -> V3 -> F;
  distribution_Sample_wh : V3 -> Point2 F -> V3;
  distribution_Pdf : V3 -> V3 -> F
}.

Definition FromRGB (c : V3) : Spec := RGB (vx c) (vy c) (vz c).

(** Which [return] statement of [f] was executed. *)
Inductive Branch : Type :=
  | ZeroCosine       (* line 128: a direction with AbsCosTheta == 0 *)
  | ZeroHalfVector   (* line 130: wi + wo is the zero vector *)
  | NoFlakes         (* line 132: flakenumber is 0 *)
  | InvalidDensity   (* line 141: DK[0] is NaN or zero *)
  | Discrete         (* line 159 *)
  | Continuous       (* line 172 *)
  | Neither.         (* line 175 *)

(** The value returned on the discrete path (lines 147-159). *)
Definition f_discrete (b : flakeBxDF) (wi wh : V3) (cosThetaI cosThetaO DK0 : F)
    (s : Rng) : Spec * Rng :=
  let wh := Normalize wh in
  let Fr := fresnel_Evaluate b (Dot wi wh) in
  let '(sampleColor, s) := SampleFromHSL s in
  let Fr := smul Fr (FromRGB sampleColor) in
  let conearea := #2 * PI * (#1 - fcos (gamma b)) in
  let distri := DK0 * (#4 / (fabs (area_A b) * conearea)) in
  (sdiv (sscale (smul (R_ b) Fr) distri) (#4 * cosThetaI * cosThetaO * #200), s).

(** The value returned on the continuous path (lines 165-173). *)
Definition f_continuous (b : flakeBxDF) (wo wi wh : V3) (cosThetaI cosThetaO : F)
  : Spec :=
  let Fr := fresnel_Evaluate b (Dot wi wh) in
  let sampleColor := AverageColor in
  let Fr := smul Fr (FromRGB sampleColor) in
  sdiv (smul (sscale (sscale (R_ b) (distribution_D b wh))
                     (distribution_G b wo wi)) Fr)
       (#4 * cosThetaI * cosThetaO).

(** [flakeBxDF::f], returning also the [return] statement it left by. *)
Definition f_trace (b : flakeBxDF) (wo wi : V3) (s : Rng)
  : Branch * Spec * Rng :=
  let cosThetaO := AbsCosTheta wo in
  let cosThetaI := AbsCosTheta wi in
  if (cosThetaI == #0) || (cosThetaO == #0) then (ZeroCosine, sZero, s) else
  let wh := vadd wi wo in
  if (vx wh == #0) && (vy wh == #0) && (vz wh == #0)
  then (ZeroHalfVector, sZero, s) else
  let wh := Normalize wh in
  if (flakenumber b =? 0)%Z then (NoFlakes, sZero, s) else
  let '(ch, s) := CreateReflectionCache wo emptyCache (flakenumber b) s in
  let DK := CalculateDistribution wi (weights ch) (rcache ch)
              (flakenumber b) (gamma b) in
  if (fst DK != fst DK) || (fst DK == #0) then (InvalidDensity, sZero, s) else
  let flag := fst DK == fst DK in
  let bmin := 1000%Z in
  let bmax := 1000%Z in
  if (flakenumber b <? bmin)%Z && flag then
    let '(v, s) := f_discrete b wi wh cosThetaI cosThetaO (fst DK) s in
    (Discrete, v, s)
  else if (bmax <=? flakenumber b)%Z || negb flag then
    (Continuous, f_continuous b wo wi wh cosThetaI cosThetaO, s)
  else (Neither, sZero, s).

Definition f (b : flakeBxDF) (wo wi : V3) (s : Rng) : Spec * Rng :=
  let '(_, v, s) := f_trace b wo wi s in (v, s).

Definition f_branch (b : flakeBxDF) (wo wi : V3) (s : Rng) : Branch :=
  fst (fst (f_trace b wo wi s)).

(** Which [return] statement of [Pdf] was executed. *)
Inductive PdfBranch : Type :=
  | PdfOtherHemisphere   (* line 220 *)
  | PdfNoFlakes          (* line 221 *)
  | PdfNaN               (* line 230 *)
  | PdfDiscrete          (* line 236 *)
  | PdfContinuous        (* line 241 *)
  | PdfNeither.          (* line 244 *)

(** The value of the continuous branch of [Pdf] (lines 240-241). *)
Definition Pdf_continuous (b : flakeBxDF) (wo wi : V3) : F :=
  let wh := Normalize (vadd wo wi) in
  distribution_Pdf b wo wh / (#4 * Dot wo wh).

(** [flakeBxDF::Pdf], returning also the [return] statement it left by. *)
Definition Pdf_trace (b : flakeBxDF) (wo wi : V3) (s : Rng)
  : PdfBranch * F * Rng :=
  if negb (SameHemisphere wo wi) then (PdfOtherHemisphere, #0, s) else
  if (flakenumber b <=? 0)%Z then (PdfNoFlakes, #0, s) else
  let '(ch, s) := CreateReflectionCache wo emptyCache (flakenumber b) s in
  let DK := CalculateDistribution wi (weights ch) (rcache ch)
              (flakenumber b) (gamma b) in
  if snd DK != snd DK then (PdfNaN, #0, s) else
  let flag := (negb (snd DK == #0) && (snd DK == snd DK))
              && negb (flakenumber b =? 0)%Z in
  let bmin := 1000%Z in
  let bmax := 1000%Z in
  if (flakenumber b <? bmin)%Z && flag then
    (PdfDiscrete,
     snd DK / (PI * (#1 - fcos (gamma b)) * at_ (ctable ch) (flakenumber b) #0),
     s)
  else if (bmax <=? flakenumber b)%Z || negb flag then
    (PdfContinuous, Pdf_continuous b wo wi, s)
  else (PdfNeither, #0, s).

Definition Pdf (b : flakeBxDF) (wo wi : V3) (s : Rng) : F * Rng :=
  let '(_, p, s) := Pdf_trace b wo wi s in (p, s).

Definition Pdf_branch (b : flakeBxDF) (wo wi : V3) (s : Rng) : PdfBranch :=
  fst (fst (Pdf_trace b wo wi s)).

(** What [Sample_f] hands back: the returned spectrum and what it stored
    through its out-parameters [wi] and [pdf] ([None]: not written). *)
Record Sample : Type := mkSample {
  s_value : Spec;
  s_wi    : option V3;
  s_pdf   : option F
}.

(** Which branch of [Sample_f] ran. *)
Inductive SampleBranch : Type :=
  | SampleDegenerate    (* lines 184, 185 *)
  | SampleDiscrete      (* lines 196-202 *)
  | SampleContinuous    (* lines 208-212 *)
  | SampleNeither.      (* line 215 *)

(** [flakeBxDF::Sample_f], returning also the branch it entered.  [has_pdf]
    says whether the caller's [pdf] pointer is non-null.  The result is
    [None] when one of the two loops of the discrete branch was still
    running after [fuel] iterations. *)
Definition Sample_f_trace (fuel : nat) (b : flakeBxDF) (wo : V3)
    (u : Point2 F) (has_pdf : bool) (s : Rng)
  : SampleBranch * option (Sample * Rng) :=
  if vz wo == #0 then (SampleDegenerate, Some (mkSample sZero None None, s)) else
  if (flakenumber b <=? 0)%Z
  then (SampleDegenerate, Some (mkSample sZero None None, s)) else
  let '(ch, s) := CreateReflectionCache wo emptyCache (flakenumber b) s in
  let bmin := 1000%Z in
  let bmax := 1000%Z in
  if (flakenumber b <? bmin)%Z then
    (SampleDiscrete,
     let '(randomvalue, s) :=
       RandomFloat #0 (at_ (ctable ch) (flakenumber b) #0) s in
     match BinarySearch fuel (rcache ch) (ctable ch) randomvalue (flakenumber b)
     with
     | None => None
     | Some r =>
         match GenerateBRDFi fuel r (gamma b) s with
         | None => None
         | Some (wi, s) =>
             if negb (SameHemisphere wo wi)
             then Some (mkSample sZero (Some wi) None, s)
             else
               let '(pdf, s) :=
                 if has_pdf
                 then let '(p, s) := Pdf b wo wi s in (Some p, s)
                 else (None, s) in
               let '(v, s) := f b wo wi s in
               Some (mkSample v (Some wi) pdf, s)
         end
     end)
  else if (bmax <=? flakenumber b)%Z then
    (SampleContinuous,
     let wh := distribution_Sample_wh b wo u in
     let wi := Reflect wo wh in
     if negb (SameHemisphere wo wi)
     then Some (mkSample sZero (Some wi) None, s)
     else
       let pdf := if has_pdf
                  then Some (distribution_Pdf b wo wh / (#4 * Dot wo wh))
                  else None in
       let '(v, s) := f b wo wi s in
       Some (mkSample v (Some wi) pdf, s))
  else (SampleNeither, Some (mkSample sZero None None, s)).

Definition Sample_f (fuel : nat) (b : flakeBxDF) (wo : V3)
    (u : Point2 F) (has_pdf : bool) (s : Rng) : option (Sample * Rng) :=
  snd (Sample_f_trace fuel b wo u has_pdf s).

End Generic.

(** ** Exact real arithmetic *)

Definition R_eqb (x y : R) : bool := if Req_dec_T x y then true else false.
Definition R_ltb (x y : R) : bool := if Rlt_dec x y then true else false.
Definition R_leb (x y : R) : bool := if Rle_dec x y then true else false.

#[export] Instance RScalar : Scalar R := {|
  of_Z := IZR;
  fadd := Rplus;
  fsub := Rminus;
  fmul := Rmult;
  fdiv := Rdiv;
  fneg := Ropp;
  fabs := Rabs;
  fsqrt := sqrt;
  fsin := sin;
  fcos := cos;
  facos := acos;
  feqb := R_eqb;
  fltb := R_ltb;
  fleb := R_leb
|}.



(** ** Specification-side notions *)

Section SpecSide.

Context {F : Type} {SF : Scalar F} {E : Env F}.

Local Open Scope scalar_scope.

(** The running sums [c + w1, c + w1 + w2, ...] of a list of weights. *)
Fixpoint running (c : F) (ws : list F) : list F :=
  match ws with
  | [] => []
  | w :: ws' => (c + w) :: running (c + w) ws'
  end.

(** The sum of a list of weights, added in order. *)
Definition total (ws : list F) : F := fold_left fadd ws #0.

(** The entries (normal, reflected direction, weight) that [k] iterations of
    the cache loop generate from generator state [s]. *)
Fixpoint entries (k : nat) (wo : Vector3 F) (s : Rng)
  : list (Vector3 F * Vector3 F * F) :=
  match k with
  | O => []
  | S k' =>
      let '(m, r, w, s') := cache_entry wo s in
      (m, r, w) :: entries k' wo s'
  end.

(** The density pair [DK] that [f] and [Pdf] compute for [wo], [wi] from
    generator state [s]: the cache is built from [wo], the estimate is taken
    around [wi]. *)
Definition estimate (b : flakeBxDF) (wo wi : Vector3 F) (s : Rng) : F * F :=
  let ch := fst (CreateReflectionCache wo emptyCache (flakenumber b) s) in
  CalculateDistribution wi (weights ch) (rcache ch) (flakenumber b) (gamma b).

(** The inputs of [f] that none of its four guards (lines 128, 130, 132,
    141) sends back with zero: both cosines non-zero, [wi + wo] not the zero
    vector, a non-zero flake count, and a normalised density estimate that
    is neither NaN nor zero. *)
Definition passes_guards (b : flakeBxDF) (wo wi : Vector3 F) (s : Rng) : bool :=
  negb ((AbsCosTheta wi == #0) || (AbsCosTheta wo == #0))
  && negb ((vx (vadd wi wo) == #0) && (vy (vadd wi wo) == #0)
           && (vz (vadd wi wo) == #0))
  && negb (flakenumber b =? 0)%Z
  && negb ((fst (estimate b wo wi s) != fst (estimate b wo wi s))
           || (fst (estimate b wo wi s) == #0)).

(** The branches of [f] that return zero because of a guard. *)
Definition guard_branch (br : Branch) : bool :=
  match br with
  | ZeroCosine | ZeroHalfVector | NoFlakes | InvalidDensity => true
  | Discrete | Continuous | Neither => false
  end.

(** The closed-form microfacet value of the specification,
    [R . D(wh) . G(wo, wi) . F / (4 cos_i cos_o)] with [wh] the normalised
    [wi + wo] and [F] the Fresnel term at [wi . wh] tinted by the average
    colour. *)
Definition microfacet_closed_form (b : flakeBxDF) (wo wi : Vector3 F)
  : Spectrum F :=
  let wh := Normalize (vadd wi wo) in
  let Fr := smul (fresnel_Evaluate b (Dot wi wh)) (FromRGB AverageColor) in
  sdiv (smul (sscale (sscale (R_ b) (distribution_D b wh))
                     (distribution_G b wo wi)) Fr)
       (#4 * AbsCosTheta wi * AbsCosTheta wo).

Definition e_normal (e : Vector3 F * Vector3 F * F) : Vector3 F := fst (fst e).
Definition e_refl (e : Vector3 F * Vector3 F * F) : Vector3 F := snd (fst e).
Definition e_weight (e : Vector3 F * Vector3 F * F) : F := snd e.

End SpecSide.

(** ** Concrete inputs *)

(** A generator that returns [RAND_MAX] at every call, and white tints. *)
Definition maxEnv : Env R := {|
  RAND_MAX := 2147483647;
  draws := fun _ => 2147483647%Z;
  SampleFromHSL := fun s => (Vec 1%R 1%R 1%R, s);
  AverageColor := Vec 1%R 1%R 1%R
|}.

(** A generator that returns 0 at every call, and white tints. *)
Definition minEnv : Env R := {|
  RAND_MAX := 2147483647;
  draws := fun _ => 0%Z;
  SampleFromHSL := fun s => (Vec 1%R 1%R 1%R, s);
  AverageColor := Vec 1%R 1%R 1%R
|}.


(** The surface normal, as a direction. *)
Definition up : Vector3 R := Vec 0%R 0%R 1%R.

(** A unit direction 36.87 degrees off the normal. *)
Definition tilt : Vector3 R := Vec (3 / 5)%R 0%R (4 / 5)%R.

(** A model with [n] flakes and cone half-angle [g] whose collaborators are
    fixed stand-ins: white reflectance and Fresnel term, [D = G = 1], a
    distribution that always samples the half-vector [swh] with density
    1. *)
Definition standIn (n : Z) (g : R) (swh : Vector3 R) : flakeBxDF (F := R) :=
  mkBxDF (RGB 1%R 1%R 1%R) n g 1%R
         (fun _ => RGB 1%R 1%R 1%R)
         (fun _ => 1%R) (fun _ _ => 1%R)
         (fun _ _ => swh) (fun _ _ => 1%R).


(** * Properties *)

Unset Implicit Arguments.

Section GenericFacts.

Context {F : Type} {SF : Scalar F} {E : Env F}.

Local Open Scope scalar_scope.

Lemma RandomFloat_state a b s : snd (RandomFloat a b s) = S s.
Proof. reflexivity. Qed.

Lemma RandomVector_state s : snd (RandomVector s) = S (S s).
Proof. reflexivity. Qed.

Lemma cache_entry_state wo s m r w s' :
  cache_entry wo s = (m, r, w, s') -> s' = S (S s).
Proof. unfold cache_entry. cbn. intros H. inversion H. reflexivity. Qed.

Lemma entries_S k wo s :
  entries (S k) wo s =
  let '(m, r, w, s') := cache_entry wo s in (m, r, w) :: entries k wo s'.
Proof. reflexivity. Qed.

Lemma entries_length k wo s : length (entries k wo s) = k.
Proof.
  revert s. induction k as [|k IH]; intros s; simpl; [reflexivity|].
  destruct (cache_entry wo s) as [[[m r] w] s1]. simpl. now rewrite IH.
Qed.

Lemma running_length c (ws : list F) : length (running c ws) = length ws.
Proof. revert c. induction ws as [|w ws IH]; intros c; simpl; auto. Qed.

(** The loop appends the generated entries, and the running sums of their
    weights, to the four vectors, and draws twice per entry. *)
Lemma cache_loop_entries k : forall wo c ch s,
  cache_loop k wo c ch s =
  (mkCache (normals ch ++ map e_normal (entries k wo s))
           (rcache ch ++ map e_refl (entries k wo s))
           (weights ch ++ map e_weight (entries k wo s))
           (ctable ch ++ running c (map e_weight (entries k wo s))),
   (s + 2 * k)%nat).
Proof.
  induction k as [|k IH]; intros wo c ch s.
  - simpl. rewrite !app_nil_r. destruct ch. f_equal. lia.
  - simpl. destruct (cache_entry wo s) as [[[m r] w] s1] eqn:He.
    apply cache_entry_state in He. subst s1.
    rewrite IH. simpl. rewrite <- !app_assoc. simpl.
    f_equal. lia.
Qed.

Lemma CreateReflectionCache_entries wo n s :
  CreateReflectionCache wo emptyCache n s =
  (let es := entries (Z.to_nat n) wo s in
   mkCache (map e_normal es) (map e_refl es) (map e_weight es)
           (#0 :: running #0 (map e_weight es)),
   (s + 2 * Z.to_nat n)%nat).
Proof. unfold CreateReflectionCache. rewrite cache_loop_entries. reflexivity. Qed.

(** The vectors have the sizes the callers index them with. *)
Lemma CreateReflectionCache_lengths wo n s :
  let ch := fst (CreateReflectionCache wo emptyCache n s) in
  length (normals ch) = Z.to_nat n /\ length (rcache ch) = Z.to_nat n /\
  length (weights ch) = Z.to_nat n /\ length (ctable ch) = S (Z.to_nat n).
Proof.
  rewrite CreateReflectionCache_entries. simpl.
  rewrite running_length, !length_map, entries_length. auto.
Qed.

Lemma running_step c (ws : list F) i d :
  (i < length ws)%nat ->
  nth (S i) (c :: running c ws) d = nth i (c :: running c ws) d + nth i ws d.
Proof.
  revert c i. induction ws as [|w ws IH]; intros c i Hi; simpl in Hi; [lia|].
  destruct i as [|i]; [reflexivity|].
  change (nth (S (S i)) (c :: running c (w :: ws)) d)
    with (nth (S i) ((c + w) :: running (c + w) ws) d).
  change (nth (S i) (c :: running c (w :: ws)) d)
    with (nth i ((c + w) :: running (c + w) ws) d).
  change (nth (S i) (w :: ws) d) with (nth i ws d).
  apply IH. lia.
Qed.

Lemma running_last c (ws : list F) d :
  nth (length ws) (c :: running c ws) d = fold_left fadd ws c.
Proof.
  revert c. induction ws as [|w ws IH]; intros c; [reflexivity|].
  change (nth (length (w :: ws)) (c :: running c (w :: ws)) d)
    with (nth (length ws) ((c + w) :: running (c + w) ws) d).
  rewrite IH. reflexivity.
Qed.

(** *** The control flow of [f] *)

(** Past the guards the flag is true, and the flake count alone selects
    the path. *)
Lemma f_trace_selected b wo wi s :
  passes_guards b wo wi s = true ->
  f_trace b wo wi s =
  (let s1 := snd (CreateReflectionCache wo emptyCache (flakenumber b) s) in
   let wh := Normalize (vadd wi wo) in
   if (flakenumber b <? 1000)%Z then
     let '(v, s2) := f_discrete b wi wh (AbsCosTheta wi) (AbsCosTheta wo)
                       (fst (estimate b wo wi s)) s1 in
     (Discrete, v, s2)
   else (Continuous, f_continuous b wo wi wh (AbsCosTheta wi) (AbsCosTheta wo),
         s1)).
Proof.
  unfold passes_guards, estimate, f_trace.
  destruct (CreateReflectionCache wo emptyCache (flakenumber b) s)
    as [ch s1] eqn:Hc.
  cbn [fst snd].
  set (DK := CalculateDistribution wi (weights ch) (rcache ch)
               (flakenumber b) (gamma b)).
  intros H.
  apply andb_prop in H. destruct H as [H H4].
  apply andb_prop in H. destruct H as [H H3].
  apply andb_prop in H. destruct H as [H1 H2].
  apply negb_true_iff in H1, H2, H3, H4.
  rewrite H1, H2, H3, H4.
  apply orb_false_elim in H4. destruct H4 as [Hnan _].
  apply negb_false_iff in Hnan. rewrite Hnan.
  destruct (flakenumber b <? 1000)%Z eqn:Hlt; cbn [andb negb orb].
  - reflexivity.
  - assert (Hge : (1000 <=? flakenumber b)%Z = true).
    { apply Z.leb_le. apply Z.ltb_ge in Hlt. exact Hlt. }
    rewrite Hge. reflexivity.
Qed.

(** A failed guard returns zero scattering. *)
Lemma f_trace_guarded b wo wi s :
  passes_guards b wo wi s = false ->
  guard_branch (f_branch b wo wi s) = true /\ fst (f b wo wi s) = sZero.
Proof.
  unfold passes_guards, estimate, f, f_branch, f_trace.
  destruct (CreateReflectionCache wo emptyCache (flakenumber b) s)
    as [ch s1] eqn:Hc.
  cbn [fst snd].
  set (DK := CalculateDistribution wi (weights ch) (rcache ch)
               (flakenumber b) (gamma b)).
  intros H.
  destruct ((AbsCosTheta wi == #0) || (AbsCosTheta wo == #0));
    [split; reflexivity|].
  destruct ((vx (vadd wi wo) == #0) && (vy (vadd wi wo) == #0)
            && (vz (vadd wi wo) == #0));
    [split; reflexivity|].
  destruct (flakenumber b =? 0)%Z; [split; reflexivity|].
  destruct ((fst DK != fst DK) || (fst DK == #0));
    [split; reflexivity|].
  discriminate H.
Qed.

Lemma f_branch_selected b wo wi s :
  passes_guards b wo wi s = true ->
  f_branch b wo wi s = if (flakenumber b <? 1000)%Z then Discrete else Continuous.
Proof.
  intros H. unfold f_branch. rewrite (f_trace_selected b wo wi s H). cbv zeta.
  destruct (flakenumber b <? 1000)%Z; [|reflexivity].
  destruct (f_discrete b wi (Normalize (vadd wi wo)) (AbsCosTheta wi)
              (AbsCosTheta wo) (fst (estimate b wo wi s))
              (snd (CreateReflectionCache wo emptyCache (flakenumber b) s))).
  reflexivity.
Qed.

(** C5. [f] returns exactly zero scattering whenever a direction has
    [AbsCosTheta == 0], or [wi + wo] is the zero vector, or the flake count
    is zero, or the normalised density estimate is NaN ([DK[0] != DK[0]]) or
    zero; it does so through one of its guards, as a value. *)
Theorem f_degenerate_zero b wo wi s :
  (AbsCosTheta wo == #0) = true \/
  (AbsCosTheta wi == #0) = true \/
  ((vx (vadd wi wo) == #0) && (vy (vadd wi wo) == #0)
   && (vz (vadd wi wo) == #0)) = true \/
  flakenumber b = 0%Z \/
  (fst (estimate b wo wi s) != fst (estimate b wo wi s)) = true \/
  (fst (estimate b wo wi s) == #0) = true ->
  fst (f b wo wi s) = sZero /\ guard_branch (f_branch b wo wi s) = true.
Proof.
  intros H.
  assert (Hg : passes_guards b wo wi s = false).
  { unfold passes_guards.
    destruct H as [H|[H|[H|[H|[H|H]]]]]; rewrite ?H.
    - rewrite orb_true_r. reflexivity.
    - reflexivity.
    - cbn [negb]. rewrite andb_false_r. reflexivity.
    - rewrite Z.eqb_refl. cbn [negb].
      rewrite andb_false_r. reflexivity.
    - cbn [orb negb]. rewrite andb_false_r. reflexivity.
    - rewrite orb_true_r. cbn [negb]. rewrite andb_false_r. reflexivity. }
  destruct (f_trace_guarded b wo wi s Hg) as [H1 H2]. split; assumption.
Qed.

(** C2, as amended. For inputs that pass the guards of [f] (which include
    a density estimate that is neither NaN nor zero), the discrete path is
    taken exactly when [n < 1000] and the continuous path exactly when
    [n >= 1000]; the validity flag is true whenever the selection is
    reached, so the continuous path is never entered as a fallback, and the
    final [return] is never reached. *)
Theorem f_regime_selection b wo wi s :
  passes_guards b wo wi s = true ->
  (f_branch b wo wi s = Discrete <-> (flakenumber b < 1000)%Z) /\
  (f_branch b wo wi s = Continuous <-> (1000 <= flakenumber b)%Z) /\
  (fst (estimate b wo wi s) == fst (estimate b wo wi s)) = true /\
  f_branch b wo wi s <> Neither.
Proof.
  intros H. rewrite (f_branch_selected b wo wi s H).
  assert (Hflag : (fst (estimate b wo wi s) == fst (estimate b wo wi s)) = true).
  { unfold passes_guards in H. apply andb_prop in H. destruct H as [_ H].
    apply negb_true_iff in H. apply orb_false_elim in H. destruct H as [H _].
    apply negb_false_iff in H. exact H. }
  destruct (Z.ltb_spec (flakenumber b) 1000) as [Hlt|Hge].
  - repeat split; try discriminate; try (intros; reflexivity);
      try lia; try exact Hflag.
  - repeat split; try discriminate; try (intros; reflexivity);
      try lia; try exact Hflag.
Qed.

(** C6, as amended. At the threshold: with 999 flakes [f] takes the discrete path and
    with 1000 flakes the continuous path, whenever it gets past its guards;
    [Sample_f], past its own two guards, enters its discrete branch with
    999 flakes and its continuous branch with 1000. *)
Theorem regime_boundary b wo wi u has_pdf fuel s :
  (flakenumber b = 999%Z -> passes_guards b wo wi s = true ->
   f_branch b wo wi s = Discrete) /\
  (flakenumber b = 1000%Z -> passes_guards b wo wi s = true ->
   f_branch b wo wi s = Continuous) /\
  (flakenumber b = 999%Z -> (vz wo == #0) = false ->
   fst (Sample_f_trace fuel b wo u has_pdf s) = SampleDiscrete) /\
  (flakenumber b = 1000%Z -> (vz wo == #0) = false ->
   fst (Sample_f_trace fuel b wo u has_pdf s) = SampleContinuous).
Proof.
  repeat split; intros Hn H.
  - rewrite (f_branch_selected b wo wi s H), Hn. reflexivity.
  - rewrite (f_branch_selected b wo wi s H), Hn. reflexivity.
  - unfold Sample_f_trace. rewrite H, Hn. cbn [Z.leb Z.compare].
    destruct (CreateReflectionCache wo emptyCache 999 s). reflexivity.
  - unfold Sample_f_trace. rewrite H, Hn. cbn [Z.leb Z.compare].
    destruct (CreateReflectionCache wo emptyCache 1000 s). reflexivity.
Qed.

(** C8, as amended. For inputs that pass the guards of [f] (a density
    estimate that is neither NaN nor zero among them) and a flake count
    [n >= 1000], [f] returns exactly the closed-form microfacet value. *)
Theorem f_continuous_closed_form b wo wi s :
  passes_guards b wo wi s = true ->
  (1000 <= flakenumber b)%Z ->
  fst (f b wo wi s) = microfacet_closed_form b wo wi.
Proof.
  intros H Hn. unfold f. rewrite (f_trace_selected b wo wi s H). cbv zeta.
  assert (Hlt : (flakenumber b <? 1000)%Z = false) by (apply Z.ltb_ge; exact Hn).
  rewrite Hlt. reflexivity.
Qed.

(** *** What [Sample_f] hands back *)

(** Whenever [Sample_f] returns a non-zero scattering value, the
    direction [wi] it stored lies in the same hemisphere as [wo], and a
    probability density has been stored if the caller asked for one; this
    for any arithmetic. *)
Lemma Sample_f_nonzero_same_hemisphere b wo u has_pdf fuel s r s' :
  Sample_f fuel b wo u has_pdf s = Some (r, s') ->
  s_value r <> sZero ->
  exists wi, s_wi r = Some wi /\ SameHemisphere wo wi = true /\
             (has_pdf = true -> exists p, s_pdf r = Some p).
Proof.
  unfold Sample_f, Sample_f_trace.
  destruct (vz wo == #0);
    [cbn [snd]; intros H Hv; injection H as <- _; elim Hv; reflexivity|].
  destruct (flakenumber b <=? 0)%Z;
    [cbn [snd]; intros H Hv; injection H as <- _; elim Hv; reflexivity|].
  destruct (CreateReflectionCache wo emptyCache (flakenumber b) s) as [ch s1].
  cbv zeta.
  destruct (flakenumber b <? 1000)%Z.
  - cbn [snd].
    destruct (RandomFloat #0 (at_ (ctable ch) (flakenumber b) #0) s1)
      as [randomvalue s2].
    destruct (BinarySearch fuel (rcache ch) (ctable ch) randomvalue
                (flakenumber b)) as [r0|]; [|discriminate].
    destruct (GenerateBRDFi fuel r0 (gamma b) s2) as [[wi s3]|]; [|discriminate].
    destruct (SameHemisphere wo wi) eqn:Hh; cbn [negb].
    + destruct has_pdf.
      * destruct (Pdf b wo wi s3) as [p s4].
        destruct (f b wo wi s4) as [v s5].
        intros H Hv. injection H as <- _. cbn [s_wi s_pdf].
        exists wi. split; [reflexivity|]. split; [exact Hh|].
        intros _. exists p. reflexivity.
      * destruct (f b wo wi s3) as [v s5].
        intros H Hv. injection H as <- _. cbn [s_wi s_pdf].
        exists wi. split; [reflexivity|]. split; [exact Hh|].
        intros Hf. discriminate Hf.
    + intros H Hv. injection H as <- _. elim Hv. reflexivity.
  - destruct (1000 <=? flakenumber b)%Z; cbn [snd].
    + destruct (SameHemisphere wo (Reflect wo (distribution_Sample_wh b wo u)))
        eqn:Hh; cbn [negb].
      * destruct (f b wo (Reflect wo (distribution_Sample_wh b wo u)) s1)
          as [v s5].
        intros H Hv. injection H as <- _. cbn [s_wi s_pdf].
        eexists. split; [reflexivity|]. split; [exact Hh|].
        intros ->. eexists. reflexivity.
      * intros H Hv. injection H as <- _. elim Hv. reflexivity.
    + intros H Hv. injection H as <- _. elim Hv. reflexivity.
Qed.

(** The continuous branch of [Sample_f], unfolded. *)
Lemma Sample_f_continuous b wo u has_pdf fuel s :
  (vz wo == #0) = false ->
  (1000 <= flakenumber b)%Z ->
  Sample_f fuel b wo u has_pdf s =
  (let s1 := snd (CreateReflectionCache wo emptyCache (flakenumber b) s) in
   let wh := distribution_Sample_wh b wo u in
   let wi := Reflect wo wh in
   if SameHemisphere wo wi
   then Some (mkSample (fst (f b wo wi s1)) (Some wi)
                (if has_pdf
                 then Some (distribution_Pdf b wo wh / (#4 * Dot wo wh))
                 else None),
              snd (f b wo wi s1))
   else Some (mkSample sZero (Some wi) None, s1)).
Proof.
  intros Hz Hn. unfold Sample_f, Sample_f_trace. rewrite Hz.
  assert (H0 : (flakenumber b <=? 0)%Z = false) by (apply Z.leb_gt; lia).
  assert (H1 : (flakenumber b <? 1000)%Z = false) by (apply Z.ltb_ge; lia).
  assert (H2 : (1000 <=? flakenumber b)%Z = true) by (apply Z.leb_le; lia).
  rewrite H0.
  destruct (CreateReflectionCache wo emptyCache (flakenumber b) s) as [ch s1].
  cbv zeta. rewrite H1, H2. cbn [snd].
  destruct (SameHemisphere wo (Reflect wo (distribution_Sample_wh b wo u)));
    cbn [negb]; [|reflexivity].
  destruct (f b wo (Reflect wo (distribution_Sample_wh b wo u)) s1).
  reflexivity.
Qed.

(** *** The control flow of [Pdf] *)



(** With at least 1000 flakes [Pdf] returns its continuous formula, unless
    the directions lie in different hemispheres or the estimate is NaN. *)
Lemma Pdf_continuous_regime b wo wi s :
  SameHemisphere wo wi = true ->
  (1000 <= flakenumber b)%Z ->
  (snd (estimate b wo wi s) == snd (estimate b wo wi s)) = true ->
  fst (Pdf b wo wi s) = Pdf_continuous b wo wi.
Proof.
  intros Hh Hn. unfold Pdf, Pdf_trace, estimate. rewrite Hh. cbn [negb].
  assert (H0 : (flakenumber b <=? 0)%Z = false) by (apply Z.leb_gt; lia).
  assert (H1 : (flakenumber b <? 1000)%Z = false) by (apply Z.ltb_ge; lia).
  assert (H2 : (1000 <=? flakenumber b)%Z = true) by (apply Z.leb_le; lia).
  rewrite H0.
  destruct (CreateReflectionCache wo emptyCache (flakenumber b) s) as [ch s1].
  cbn [fst snd]. intros Heq. rewrite Heq. cbn [negb]. cbv zeta.
  rewrite H1, H2. reflexivity.
Qed.

(** In its discrete branch [Sample_f] reports the very value [Pdf] returns
    for the direction it stored. *)
Lemma Sample_f_discrete_reuses_Pdf b wo u fuel s r s' p :
  (flakenumber b < 1000)%Z ->
  Sample_f fuel b wo u true s = Some (r, s') ->
  s_pdf r = Some p ->
  exists wi s0, s_wi r = Some wi /\ p = fst (Pdf b wo wi s0).
Proof.
  intros Hn. unfold Sample_f, Sample_f_trace.
  destruct (vz wo == #0);
    [cbn [snd]; intros H Hp; injection H as <- _; discriminate Hp|].
  destruct (flakenumber b <=? 0)%Z;
    [cbn [snd]; intros H Hp; injection H as <- _; discriminate Hp|].
  destruct (CreateReflectionCache wo emptyCache (flakenumber b) s) as [ch s1].
  cbv zeta.
  assert (H1 : (flakenumber b <? 1000)%Z = true) by (apply Z.ltb_lt; lia).
  rewrite H1. cbn [snd].
  destruct (RandomFloat #0 (at_ (ctable ch) (flakenumber b) #0) s1)
    as [randomvalue s2].
  destruct (BinarySearch fuel (rcache ch) (ctable ch) randomvalue
              (flakenumber b)) as [r0|]; [|discriminate].
  destruct (GenerateBRDFi fuel r0 (gamma b) s2) as [[wi s3]|]; [|discriminate].
  destruct (SameHemisphere wo wi); cbn [negb].
  - destruct (Pdf b wo wi s3) as [q s4] eqn:Hq.
    destruct (f b wo wi s4) as [v s5].
    intros H Hp. injection H as <- _. cbn [s_wi s_pdf] in *.
    injection Hp as <-. exists wi, s3. rewrite Hq. split; reflexivity.
  - intros H Hp. injection H as <- _. discriminate Hp.
Qed.

End GenericFacts.

(** ** Facts of exact real arithmetic *)

Section RealFacts.

Context {E : Env R}.

Local Open Scope R_scope.

Lemma R_eqb_true x y : R_eqb x y = true <-> x = y.
Proof. unfold R_eqb. destruct (Req_dec_T x y); split; congruence. Qed.

Lemma R_ltb_true x y : R_ltb x y = true <-> x < y.
Proof. unfold R_ltb. destruct (Rlt_dec x y); split; congruence. Qed.

Lemma R_leb_true x y : R_leb x y = true <-> x <= y.
Proof. unfold R_leb. destruct (Rle_dec x y); split; congruence. Qed.

Lemma R_eqb_false x y : R_eqb x y = false <-> x <> y.
Proof. unfold R_eqb. destruct (Req_dec_T x y); split; congruence. Qed.

Lemma R_ltb_false x y : R_ltb x y = false <-> y <= x.
Proof. unfold R_ltb. destruct (Rlt_dec x y); split; intros; try congruence; lra. Qed.

Lemma R_leb_false x y : R_leb x y = false <-> y < x.
Proof. unfold R_leb. destruct (Rle_dec x y); split; intros; try congruence; lra. Qed.

(** With non-negative weights the running sums never decrease. *)
Lemma running_monotone (ws : list R) : forall c i j,
  Forall (fun w => 0 <= w) ws ->
  (i <= j <= length ws)%nat ->
  nth i (c :: running c ws) 0 <= nth j (c :: running c ws) 0.
Proof.
  induction ws as [|w ws IH]; intros c i j Hpos Hij; simpl in Hij.
  - assert (i = 0%nat) by lia. assert (j = 0%nat) by lia. subst. simpl. lra.
  - inversion Hpos as [|? ? Hw Hws]; subst.
    destruct j as [|j].
    + assert (i = 0%nat) by lia. subst. simpl. lra.
    + change (nth (S j) (c :: running c (w :: ws)) 0)
        with (nth j ((c + w) :: running (c + w) ws) 0).
      destruct i as [|i].
      * change (nth 0 (c :: running c (w :: ws)) 0) with c.
        apply Rle_trans with (c + w); [lra|].
        apply (IH (c + w) 0%nat j Hws). lia.
      * change (nth (S i) (c :: running c (w :: ws)) 0)
          with (nth i ((c + w) :: running (c + w) ws) 0).
        apply IH; [assumption | lia].
Qed.

Lemma entries_weight_nonneg k : forall wo s,
  Forall (fun w => 0 <= w) (map e_weight (entries k wo s)).
Proof.
  induction k as [|k IH]; intros wo s; simpl; [constructor|].
  destruct (cache_entry wo s) as [[[m r] w] s1] eqn:He.
  simpl. constructor; [|apply IH].
  unfold cache_entry in He. cbn in He. inversion He. apply Rabs_pos.
Qed.

(** C7. For every outgoing direction and every flake count [n >= 1], the
    cumulative table built by [CreateReflectionCache] has length [n + 1],
    starts with 0, satisfies [table[i+1] = table[i] + weights[i]] for every
    [i < n], is non-decreasing, and ends with the sum of the [n] weights. *)
Theorem CreateReflectionCache_cumulative_table (wo : Vector3 R) (n : Z) (s : Rng) :
  (1 <= n)%Z ->
  let ch := fst (CreateReflectionCache wo emptyCache n s) in
  length (ctable ch) = S (Z.to_nat n) /\
  at_ (ctable ch) 0 0 = 0 /\
  (forall i, (0 <= i < n)%Z ->
     at_ (ctable ch) (i + 1) 0 = at_ (ctable ch) i 0 + at_ (weights ch) i 0) /\
  (forall i j, (0 <= i <= j)%Z -> (j <= n)%Z ->
     at_ (ctable ch) i 0 <= at_ (ctable ch) j 0) /\
  at_ (ctable ch) n 0 = total (weights ch).
Proof.
  intros Hn ch.
  pose proof (CreateReflectionCache_lengths wo n s) as (_ & _ & Hlw & Hlc).
  fold ch in Hlw, Hlc.
  assert (Hc : ctable ch = 0 :: running 0 (weights ch)).
  { unfold ch. rewrite CreateReflectionCache_entries. reflexivity. }
  assert (Hpos : Forall (fun w => 0 <= w) (weights ch)).
  { unfold ch. rewrite CreateReflectionCache_entries. simpl.
    apply entries_weight_nonneg. }
  split; [exact Hlc|].
  split; [rewrite Hc; reflexivity|].
  split; [|split].
  - intros i Hi. unfold at_. rewrite Hc.
    replace (Z.to_nat (i + 1)) with (S (Z.to_nat i)) by lia.
    apply (running_step (SF := RScalar)). lia.
  - intros i j Hij Hj. unfold at_. rewrite Hc.
    apply running_monotone; [exact Hpos | lia].
  - unfold at_. rewrite Hc at 1. rewrite <- Hlw.
    apply (running_last (SF := RScalar)).
Qed.

(** *** The cache search *)

Lemma middle_between (a b : Z) :
  (a + 2 <= b)%Z ->
  (a < a + Z.quot (b - a) 2 < b)%Z.
Proof.
  intros H. rewrite Z.quot_div_nonneg by lia.
  pose proof (Z.div_mod (b - a) 2 ltac:(lia)) as Hd.
  pose proof (Z.mod_pos_bound (b - a) 2 ltac:(lia)) as Hm.
  lia.
Qed.

(** With the target strictly above [ct[start]] and at most [ct[end]], the
    loop returns within [end - start] iterations an entry whose cumulative
    interval contains the target. *)
Lemma bs_loop_finds (cache : list (Vector3 R)) (ct : list R) (value : R) :
  forall fuel start end_,
  (0 <= start < end_)%Z ->
  at_ ct start 0 < value <= at_ ct end_ 0 ->
  (Z.to_nat (end_ - start) <= fuel)%nat ->
  exists i, (start <= i < end_)%Z /\
    bs_loop fuel cache ct value start end_ = Some (at_ cache i vzero) /\
    at_ ct i 0 < value <= at_ ct (i + 1) 0.
Proof.
  induction fuel as [|fuel IH]; intros start end_ Hs Hinv Hfuel; [lia|].
  cbn [bs_loop].
  destruct (Z.leb_spec start end_) as [_|Hlt]; [|lia].
  cbn [feqb fltb fleb RScalar of_Z].
  destruct (R_ltb (at_ ct start 0) value && R_leb value (at_ ct (start + 1) 0))
    eqn:Hhit.
  - apply andb_prop in Hhit. destruct Hhit as [H1 H2].
    apply R_ltb_true in H1. apply R_leb_true in H2.
    exists start. split; [lia|]. split; [reflexivity|]. split; assumption.
  - assert (Hfar : (start + 2 <= end_)%Z).
    { destruct (Z.eq_dec end_ (start + 1)) as [->|Hne]; [|lia].
      exfalso. destruct Hinv as [H1 H2].
      apply R_ltb_true in H1. apply R_leb_true in H2.
      rewrite H1, H2 in Hhit. discriminate. }
    pose proof (middle_between start end_ Hfar) as Hmid.
    set (middle := (start + Z.quot (end_ - start) 2)%Z) in *.
    destruct (R_leb value (at_ ct middle 0)) eqn:Hm.
    + apply R_leb_true in Hm.
      destruct (IH start middle) as (i & Hi & Hres & Hprop);
        [lia | lra | lia |].
      exists i. split; [lia|]. split; assumption.
    + apply R_leb_false in Hm.
      destruct (IH middle end_) as (i & Hi & Hres & Hprop);
        [lia | lra | lia |].
      exists i. split; [lia|]. split; assumption.
Qed.

(** With target 0 and a table without negative entries the loop never
    leaves: the first test needs an entry below the target, and the second
    keeps [start] at 0 and [end] at or above it. *)
Lemma bs_loop_zero_target (cache : list (Vector3 R)) (ct : list R) :
  (forall i, 0 <= at_ ct i 0) ->
  forall fuel end_, (0 <= end_)%Z ->
  bs_loop fuel cache ct 0 0%Z end_ = None.
Proof.
  intros Hnn. induction fuel as [|fuel IH]; intros end_ He; [reflexivity|].
  cbn [bs_loop].
  destruct (Z.leb_spec 0 end_) as [_|Hlt]; [|lia].
  cbn [feqb fltb fleb RScalar of_Z].
  assert (H1 : R_ltb (at_ ct 0 0) 0 = false).
  { apply R_ltb_false. apply Hnn. }
  rewrite H1. cbn [andb].
  assert (H2 : R_leb 0 (at_ ct (0 + Z.quot (end_ - 0) 2) 0) = true).
  { apply R_leb_true. apply Hnn. }
  rewrite H2. apply IH.
  rewrite Z.sub_0_r, Z.add_0_l. apply Z.quot_pos; lia.
Qed.

(** C3, as amended. For a cumulative table with [table[0] = 0] and a target
    with [0 < target <= table[n]], [BinarySearch] returns, within [n]
    iterations, the cached reflected direction of an entry [i < n] with
    [table[i] < target <= table[i+1]]; the upper boundary [target =
    table[n]] is included, the lower boundary [target = 0] is not. *)
Theorem BinarySearch_finds_entry
    (cache : list (Vector3 R)) (ct : list R) (value : R) (n : Z) (fuel : nat) :
  at_ ct 0 0 = 0 ->
  0 < value <= at_ ct n 0 ->
  (Z.to_nat n <= fuel)%nat ->
  exists i, (0 <= i < n)%Z /\
    BinarySearch fuel cache ct value n = Some (at_ cache i vzero) /\
    at_ ct i 0 < value <= at_ ct (i + 1) 0.
Proof.
  intros H0 Hv Hfuel.
  assert (Hn : (0 < n)%Z).
  { destruct (Z.ltb_spec 0 n) as [H|H]; [exact H|].
    exfalso. unfold at_ in H0, Hv.
    replace (Z.to_nat n) with (Z.to_nat 0) in Hv by lia.
    rewrite H0 in Hv. lra. }
  unfold BinarySearch. apply bs_loop_finds.
  - lia.
  - rewrite H0. exact Hv.
  - rewrite Z.sub_0_r. exact Hfuel.
Qed.

(** *** Unit vectors *)

Lemma Dot_R (a b : Vector3 R) :
  Dot a b = vx a * vx b + vy a * vy b + vz a * vz b.
Proof. reflexivity. Qed.

Lemma RandomVector_unit s :
  Dot (fst (RandomVector s)) (fst (RandomVector s)) = 1.
Proof.
  unfold RandomVector. cbn.
  match goal with
  | |- context [sin (acos ?c)] => set (th := acos c)
  end.
  match goal with
  | |- context [cos (0 + ?c)] => set (ph := 0 + c)
  end.
  pose proof (sin2_cos2 th) as H1. pose proof (sin2_cos2 ph) as H2.
  unfold Rsqr in H1, H2.
  set (a := sin th) in *. set (b := cos th) in *.
  set (c := sin ph) in *. set (d := cos ph) in *.
  replace (a * d * (a * d) + a * c * (a * c) + b * b)
    with (a * a * (c * c + d * d) + b * b) by ring.
  rewrite H2. lra.
Qed.

Lemma Normalize_unit (v : Vector3 R) : Dot v v = 1 -> Normalize v = v.
Proof.
  intros H. unfold Normalize, Length. rewrite H. cbn. rewrite sqrt_1.
  destruct v as [x y z]. unfold vscale. cbn. f_equal; field.
Qed.

(** The weight of an entry is |wo . m| for the unit normal [m] drawn. *)
Lemma cache_entry_weight wo s m r w s' :
  cache_entry wo s = (m, r, w, s') ->
  Dot m m = 1 /\ w = Rabs (Dot wo m).
Proof.
  unfold cache_entry.
  destruct (RandomVector s) as [v s1] eqn:Hv.
  pose proof (RandomVector_unit s) as Hu. rewrite Hv in Hu. simpl in Hu.
  rewrite (Normalize_unit v Hu).
  intros H. injection H as Hm Hr Hw Hs. subst m. split; [exact Hu|].
  assert (Hd : Dot v (Reflect wo v) = Dot wo v).
  { rewrite !Dot_R in *. destruct wo as [a1 a2 a3], v as [b1 b2 b3].
    cbn in *.
    replace (b1 * (- a1 + b1 * (2 * (a1 * b1 + a2 * b2 + a3 * b3))) +
             b2 * (- a2 + b2 * (2 * (a1 * b1 + a2 * b2 + a3 * b3))) +
             b3 * (- a3 + b3 * (2 * (a1 * b1 + a2 * b2 + a3 * b3))))
      with ((a1 * b1 + a2 * b2 + a3 * b3) *
            (2 * (b1 * b1 + b2 * b2 + b3 * b3) - 1)) by ring.
    rewrite Hu. ring. }
  subst w r.
  match goal with
  | |- context [if ?c then _ else _] => destruct c
  end.
  - rewrite <- Hd. cbn [fabs RScalar].
    rewrite <- (Rabs_Ropp (Dot v (Reflect wo v))). f_equal.
    rewrite !Dot_R. cbn. ring.
  - rewrite <- Hd. reflexivity.
Qed.





(** *** The density estimate against the total weight *)

(** The estimator adds a sub-sum of the weights: over [k] entries from
    index [i] it grows by at most the growth of the cumulative table. *)
Lemma dist_loop_bounds (wi : Vector3 R) (ws : list R) (rc : list (Vector3 R))
    (g c : R) :
  Forall (fun w => 0 <= w) ws ->
  forall k i D, (0 <= i)%Z -> (Z.to_nat i + k <= length ws)%nat ->
  D <= dist_loop k wi ws rc g i D <=
  D + (nth (Z.to_nat i + k) (c :: running c ws) 0
       - nth (Z.to_nat i) (c :: running c ws) 0).
Proof.
  intros Hpos. induction k as [|k IH]; intros i D Hi Hk.
  - cbn [dist_loop]. rewrite Nat.add_0_r. lra.
  - cbn [dist_loop].
    assert (Hw : 0 <= at_ ws i 0).
    { unfold at_. apply (proj1 (Forall_nth _ ws) Hpos). lia. }
    pose proof (running_step (SF := RScalar) c ws (Z.to_nat i) 0
                  ltac:(lia)) as Hstep.
    cbn [fadd RScalar] in Hstep.
    set (D' := if (Dot wi (at_ rc i vzero) >=? fcos g)%sc
               then (D + at_ ws i (of_Z 0))%sc else D).
    assert (HD : D <= D' <= D + at_ ws i 0).
    { unfold D'. destruct (Dot wi (at_ rc i vzero) >=? fcos g)%sc;
        cbn [fadd of_Z RScalar]; lra. }
    specialize (IH (i + 1)%Z D' ltac:(lia) ltac:(lia)).
    replace (Z.to_nat (i + 1)) with (S (Z.to_nat i)) in IH by lia.
    replace (Z.to_nat i + S k)%nat with (S (Z.to_nat i) + k)%nat by lia.
    rewrite Hstep in IH. unfold at_ in HD. lra.
Qed.



(** *** The half-vector of a mirror direction *)

(** Reflecting [wo] about a unit vector [wh] on its own side and
    normalising [wo + wi] gives [wh] back. *)
Lemma Normalize_mirror (wo wh : Vector3 R) :
  Dot wh wh = 1 -> 0 < Dot wo wh ->
  Normalize (vadd wo (Reflect wo wh)) = wh.
Proof.
  intros Hu Hd.
  set (d := Dot wo wh) in *.
  assert (Hsum : vadd wo (Reflect wo wh) = vscale wh (2 * d)).
  { unfold Reflect, vadd, vneg, vscale. fold d. cbn.
    destruct wo as [a1 a2 a3], wh as [b1 b2 b3]. cbn. f_equal; ring. }
  rewrite Hsum. clearbody d. clear Hsum.
  destruct wh as [b1 b2 b3]. rewrite Dot_R in Hu. cbn in Hu.
  unfold Normalize, Length.
  assert (Hsq : Dot (vscale (Vec b1 b2 b3) (2 * d)) (vscale (Vec b1 b2 b3) (2 * d))
                = (2 * d) * (2 * d)).
  { rewrite Dot_R. cbn.
    transitivity ((b1 * b1 + b2 * b2 + b3 * b3) * (2 * d * (2 * d)));
      [ring | rewrite Hu; ring]. }
  rewrite Hsq. cbn [fsqrt RScalar]. rewrite sqrt_square by lra.
  unfold vscale. cbn. f_equal; field; lra.
Qed.

(** C4, as amended. In the discrete regime ([n < 1000]) the density
    [Sample_f] reports is the value of a call of [Pdf] for the direction it
    stored.  In the continuous regime ([n >= 1000]), when the sampled
    half-vector [wh] is a unit vector with [Dot(wo, wh) > 0] and the mirror
    direction [wi = Reflect(wo, wh)] lies in the hemisphere of [wo],
    [Sample_f] reports [distribution->Pdf(wo, wh) / (4 Dot(wo, wh))] and
    [Pdf(wo, wi)], computed from [Normalize(wo + wi)], returns the same
    value. *)
Theorem Sample_f_density_agrees_with_Pdf b wo u fuel s :
  ((flakenumber b < 1000)%Z ->
   forall r s' p,
     Sample_f fuel b wo u true s = Some (r, s') ->
     s_pdf r = Some p ->
     exists wi s0, s_wi r = Some wi /\ p = fst (Pdf b wo wi s0)) /\
  ((1000 <= flakenumber b)%Z ->
   R_eqb (vz wo) 0 = false ->
   let wh := distribution_Sample_wh b wo u in
   let wi := Reflect wo wh in
   Dot wh wh = 1 -> 0 < Dot wo wh -> SameHemisphere wo wi = true ->
   exists r s',
     Sample_f fuel b wo u true s = Some (r, s') /\
     s_wi r = Some wi /\
     s_pdf r = Some (distribution_Pdf b wo wh / (4 * Dot wo wh)) /\
     forall s0, fst (Pdf b wo wi s0) = distribution_Pdf b wo wh / (4 * Dot wo wh)).
Proof.
  split.
  - intros Hn r s' p Hrun Hp.
    exact (Sample_f_discrete_reuses_Pdf b wo u fuel s r s' p Hn Hrun Hp).
  - intros Hn Hz wh wi Hu Hd Hh.
    rewrite (Sample_f_continuous (SF := RScalar) b wo u true fuel s Hz Hn).
    cbv zeta.
    fold wh. fold wi. rewrite Hh.
    eexists. eexists. split; [reflexivity|]. cbn [s_wi s_pdf].
    split; [reflexivity|]. split; [reflexivity|].
    intros s0. rewrite (Pdf_continuous_regime b wo wi s0 Hh Hn).
    + unfold Pdf_continuous. unfold wi at 1 2.
      rewrite (Normalize_mirror wo wh Hu Hd). reflexivity.
    + apply R_eqb_true. reflexivity.
Qed.

End RealFacts.

(** ** Instances at concrete inputs *)

Local Open Scope R_scope.

Lemma CreateReflectionCache_cumulative_table_witness :
  let ch := fst (CreateReflectionCache (E := maxEnv) up emptyCache 3%Z 0%nat) in
  length (ctable ch) = 4%nat /\
  at_ (ctable ch) 0 0 = 0 /\
  (forall i, (0 <= i < 3)%Z ->
     at_ (ctable ch) (i + 1) 0 = at_ (ctable ch) i 0 + at_ (weights ch) i 0) /\
  (forall i j, (0 <= i <= j)%Z -> (j <= 3)%Z ->
     at_ (ctable ch) i 0 <= at_ (ctable ch) j 0) /\
  at_ (ctable ch) 3 0 = total (weights ch).
Proof.
  apply (CreateReflectionCache_cumulative_table (E := maxEnv) up 3%Z 0%nat). lia.
Defined.


Lemma BinarySearch_finds_entry_witness :
  exists i, (0 <= i < 2)%Z /\
    BinarySearch 2 [up; Vec 1 0 0] [0; 1; 2] 2 2 =
      Some (at_ [up; Vec 1 0 0] i vzero) /\
    at_ [0; 1; 2] i 0 < 2 <= at_ [0; 1; 2] (i + 1) 0.
Proof.
  apply (BinarySearch_finds_entry [up; Vec 1 0 0] [0; 1; 2] 2 2%Z 2%nat).
  - reflexivity.
  - unfold at_. simpl. lra.
  - simpl. lia.
Defined.

(** C3 fails at the lower boundary. On the table [0, 1] of a single entry of
    weight 1, the target 0 lies in [0, table[1]], but no entry has
    [table[i] < 0], and [BinarySearch] is still in its loop after any
    number of iterations. *)
Lemma BinarySearch_target_zero_counterexample :
  at_ [0; 1] 0 0 = 0 /\ 0 <= 0 <= at_ [0; 1] 1 0 /\
  (forall i, ~ at_ [0; 1] i 0 < 0) /\
  forall fuel, BinarySearch fuel [up] [0; 1] 0 1 = None.
Proof.
  assert (Hnn : forall i, 0 <= at_ [0; 1] i 0).
  { intros i. unfold at_.
    destruct (Z.to_nat i) as [|[|[|k]]]; cbn; lra. }
  split; [reflexivity|]. split; [unfold at_; simpl; lra|]. split.
  - intros i Hi. specialize (Hnn i). lra.
  - intros fuel. unfold BinarySearch.
    apply bs_loop_zero_target; [exact Hnn | lia].
Qed.

(** *** Runs with the generator stuck at [RAND_MAX] *)

Lemma RandomFloat_max a b s :
  RandomFloat (E := maxEnv) a b s = (b, S s).
Proof.
  unfold RandomFloat, rand. cbn. f_equal. field.
Qed.

Lemma RandomVector_max s : RandomVector (E := maxEnv) s = (up, S (S s)).
Proof.
  unfold RandomVector. rewrite !RandomFloat_max. cbn.
  rewrite acos_1, sin_0, cos_0. unfold up. f_equal. f_equal; ring.
Qed.

Lemma Dot_up_up : Dot up up = 1.
Proof. rewrite Dot_R. cbn. ring. Qed.

Lemma cache_entry_max s :
  cache_entry (E := maxEnv) up s = (up, up, 1, S (S s)).
Proof.
  unfold cache_entry. rewrite RandomVector_max.
  rewrite (Normalize_unit up Dot_up_up).
  assert (Hr : Reflect up up = up).
  { unfold Reflect, vadd, vneg, vscale, up. rewrite Dot_R. cbn.
    f_equal; ring. }
  rewrite Hr.
  assert (Hh : SameHemisphere up up = true).
  { unfold SameHemisphere. cbn. apply R_ltb_true. lra. }
  rewrite Hh. cbn [negb]. rewrite Dot_up_up. cbn. rewrite Rabs_R1. reflexivity.
Qed.

Lemma entries_max k : forall s,
  entries (E := maxEnv) k up s = repeat (up, up, 1) k.
Proof.
  induction k as [|k IH]; intros s; [reflexivity|].
  rewrite entries_S, cache_entry_max, IH. reflexivity.
Qed.

Lemma CreateReflectionCache_max n s :
  CreateReflectionCache (E := maxEnv) up emptyCache n s =
  (mkCache (repeat up (Z.to_nat n)) (repeat up (Z.to_nat n))
           (repeat 1 (Z.to_nat n)) (0 :: running 0 (repeat 1 (Z.to_nat n))),
   (s + 2 * Z.to_nat n)%nat).
Proof.
  rewrite CreateReflectionCache_entries, entries_max. cbv zeta.
  rewrite !map_repeat. reflexivity.
Qed.

Lemma dist_loop_repeat (wi : Vector3 R) (g : R) (m : nat) :
  forall k i D, (0 <= i)%Z -> (Z.to_nat i + k <= m)%nat ->
  dist_loop k wi (repeat 1 m) (repeat up m) g i D =
  if R_leb (cos g) (Dot wi up) then D + INR k else D.
Proof.
  induction k as [|k IH]; intros i D Hi Hk.
  - cbn [dist_loop]. destruct (R_leb (cos g) (Dot wi up)); cbn; lra.
  - cbn [dist_loop]. unfold at_ at 1 2.
    rewrite !nth_repeat_lt by lia.
    rewrite IH by lia.
    cbn [fleb fcos fadd RScalar].
    destruct (R_leb (cos g) (Dot wi up)); [|reflexivity].
    rewrite S_INR. ring.
Qed.

(** The density pair estimated around [wi] from the cache built for [up]. *)
Lemma estimate_max n g swh wi s :
  estimate (E := maxEnv) (standIn n g swh) up wi s =
  if R_leb (cos g) (Dot wi up)
  then (INR (Z.to_nat n) / 100000000, INR (Z.to_nat n))
  else (0 / 100000000, 0).
Proof.
  unfold estimate. rewrite CreateReflectionCache_max.
  cbn [fst weights rcache flakenumber gamma standIn].
  unfold CalculateDistribution. rewrite dist_loop_repeat by lia.
  cbn [of_Z RScalar fdiv].
  destruct (R_leb (cos g) (Dot wi up)); [|reflexivity].
  rewrite Rplus_0_l. reflexivity.
Qed.



(** Looking along the normal, with every cached reflection along the
    normal and a cone of half-angle 0 around it, the estimate is positive
    and the guards are passed. *)
Lemma passes_guards_up n swh s :
  (1 <= n)%Z ->
  passes_guards (E := maxEnv) (standIn n 0 swh) up up s = true.
Proof.
  intros Hn. unfold passes_guards. rewrite estimate_max.
  assert (Hc : R_leb (cos 0) (Dot up up) = true).
  { apply R_leb_true. rewrite cos_0, Dot_up_up. lra. }
  rewrite Hc. cbn [fst flakenumber standIn].
  assert (Hk : 0 < INR (Z.to_nat n) / 100000000).
  { apply Rdiv_lt_0_compat; [|lra]. apply lt_0_INR. lia. }
  cbn [feqb RScalar of_Z].
  assert (H1 : R_eqb (AbsCosTheta up) 0 = false).
  { apply R_eqb_false. unfold AbsCosTheta. cbn. rewrite Rabs_R1. lra. }
  assert (H2 : R_eqb (vz (vadd up up)) 0 = false).
  { apply R_eqb_false. cbn. lra. }
  assert (H3 : (n =? 0)%Z = false) by (apply Z.eqb_neq; lia).
  assert (H4 : R_eqb (INR (Z.to_nat n) / 100000000) 0 = false).
  { apply R_eqb_false. lra. }
  assert (H5 : R_eqb (INR (Z.to_nat n) / 100000000)
                     (INR (Z.to_nat n) / 100000000) = true).
  { apply R_eqb_true. reflexivity. }
  rewrite H1, H2, H3, H4, H5. rewrite andb_false_r. reflexivity.
Qed.

(** Looking from [tilt], no cached reflection falls in the cone of
    half-angle 0: the estimate is zero and the density guard fires. *)
Lemma estimate_tilt n swh s :
  estimate (E := maxEnv) (standIn n 0 swh) up tilt s = (0 / 100000000, 0).
Proof.
  rewrite estimate_max.
  assert (Hc : R_leb (cos 0) (Dot tilt up) = false).
  { apply R_leb_false. rewrite cos_0, Dot_R. cbn. lra. }
  rewrite Hc. reflexivity.
Qed.

Lemma passes_guards_tilt n swh s :
  passes_guards (E := maxEnv) (standIn n 0 swh) up tilt s = false.
Proof.
  unfold passes_guards. rewrite estimate_tilt. cbn [fst].
  cbn [feqb RScalar of_Z].
  assert (H : R_eqb (0 / 100000000) 0 = true).
  { apply R_eqb_true. lra. }
  rewrite H. rewrite orb_true_r. cbn [negb]. apply andb_false_r.
Qed.

(** The closed form of the stand-in model is not zero. *)
Lemma closed_form_standIn_nonzero n g swh wi :
  vz wi <> 0 ->
  microfacet_closed_form (E := maxEnv) (standIn n g swh) up wi <> sZero.
Proof.
  intros Hz H. apply (f_equal (@sr R)) in H. revert H.
  unfold microfacet_closed_form, AbsCosTheta. cbn.
  rewrite Rabs_R1.
  assert (Ha : 0 < Rabs (vz wi)) by (apply Rabs_pos_lt; exact Hz).
  intros H.
  assert (Hp : 0 < 1 * 1 * 1 * (1 * 1) / (4 * Rabs (vz wi) * 1)).
  { apply Rdiv_lt_0_compat; lra. }
  lra.
Qed.

Lemma up_not_horizontal : R_eqb (vz up) 0 = false.
Proof. apply R_eqb_false. cbn. lra. Qed.

Lemma guard_branch_not_selected br :
  guard_branch br = true -> br <> Discrete /\ br <> Continuous.
Proof. destruct br; intros H; try discriminate H; split; discriminate. Qed.

Lemma f_degenerate_zero_witness :
  fst (f (E := maxEnv) (standIn 999 0 up) up tilt 0%nat) = sZero /\
  guard_branch (f_branch (E := maxEnv) (standIn 999 0 up) up tilt 0%nat) = true.
Proof.
  apply (f_degenerate_zero (E := maxEnv) (standIn 999 0 up) up tilt 0%nat).
  do 5 right. rewrite estimate_tilt. apply R_eqb_true. cbn. lra.
Defined.

Lemma f_regime_selection_witness :
  (f_branch (E := maxEnv) (standIn 999 0 up) up up 0%nat = Discrete
   <-> (999 < 1000)%Z) /\
  (f_branch (E := maxEnv) (standIn 999 0 up) up up 0%nat = Continuous
   <-> (1000 <= 999)%Z) /\
  feqb (fst (estimate (E := maxEnv) (standIn 999 0 up) up up 0%nat))
       (fst (estimate (E := maxEnv) (standIn 999 0 up) up up 0%nat)) = true /\
  f_branch (E := maxEnv) (standIn 999 0 up) up up 0%nat <> Neither.
Proof.
  apply (f_regime_selection (E := maxEnv) (standIn 999 0 up) up up 0%nat).
  apply passes_guards_up. lia.
Defined.

(** C2 fails when the estimate is zero. From [up] to [tilt], two
    non-degenerate unit directions of one hemisphere, with a cone of
    half-angle 0 and every cached reflection along the normal, the validity
    flag holds (0 is not NaN), yet with 999 flakes [f] does not take the
    discrete path and with 1000 flakes it does not take the continuous
    path: it returns zero through the density guard. *)
Lemma f_regime_selection_counterexample :
  AbsCosTheta up <> 0 /\ AbsCosTheta tilt <> 0 /\ vadd tilt up <> vzero /\
  feqb (fst (estimate (E := maxEnv) (standIn 999 0 up) up tilt 0%nat))
       (fst (estimate (E := maxEnv) (standIn 999 0 up) up tilt 0%nat)) = true /\
  f_branch (E := maxEnv) (standIn 999 0 up) up tilt 0%nat <> Discrete /\
  feqb (fst (estimate (E := maxEnv) (standIn 1000 0 up) up tilt 0%nat))
       (fst (estimate (E := maxEnv) (standIn 1000 0 up) up tilt 0%nat)) = true /\
  f_branch (E := maxEnv) (standIn 1000 0 up) up tilt 0%nat <> Continuous.
Proof.
  split. { unfold AbsCosTheta. cbn. rewrite Rabs_R1. lra. }
  split. { unfold AbsCosTheta. cbn. rewrite Rabs_pos_eq; lra. }
  split. { intros H. apply (f_equal (@vz R)) in H. cbn in H. lra. }
  split. { apply R_eqb_true. reflexivity. }
  split.
  { apply guard_branch_not_selected.
    apply (f_trace_guarded (E := maxEnv)). apply passes_guards_tilt. }
  split. { apply R_eqb_true. reflexivity. }
  apply guard_branch_not_selected.
  apply (f_trace_guarded (E := maxEnv)). apply passes_guards_tilt.
Qed.

Lemma regime_boundary_witness :
  f_branch (E := maxEnv) (standIn 999 0 up) up up 0%nat = Discrete /\
  f_branch (E := maxEnv) (standIn 1000 0 up) up up 0%nat = Continuous /\
  fst (Sample_f_trace (E := maxEnv) 0 (standIn 999 0 up) up (Pt2 0 0) true 0%nat)
    = SampleDiscrete /\
  fst (Sample_f_trace (E := maxEnv) 0 (standIn 1000 0 up) up (Pt2 0 0) true 0%nat)
    = SampleContinuous.
Proof.
  destruct (regime_boundary (E := maxEnv) (standIn 999 0 up) up up
              (Pt2 0 0) true 0%nat 0%nat) as (H1 & _ & H3 & _).
  destruct (regime_boundary (E := maxEnv) (standIn 1000 0 up) up up
              (Pt2 0 0) true 0%nat 0%nat) as (_ & H2 & _ & H4).
  split; [apply H1; [reflexivity | apply passes_guards_up; lia]|].
  split; [apply H2; [reflexivity | apply passes_guards_up; lia]|].
  split; [apply H3; [reflexivity | exact up_not_horizontal]|].
  apply H4; [reflexivity | exact up_not_horizontal].
Defined.

(** C6 fails as stated, for the same guards. With 999 flakes, from [up] to
    [tilt] with a cone of half-angle 0, [f] does not take the discrete path,
    and with 1000 flakes it does not take the continuous path: the density
    guard returns zero first. With the horizontal [wo = (1, 0, 0)],
    [Sample_f] enters neither its discrete branch (999 flakes) nor its
    continuous branch (1000 flakes). *)
Lemma regime_boundary_counterexample :
  f_branch (E := maxEnv) (standIn 999 0 up) up tilt 0%nat <> Discrete /\
  f_branch (E := maxEnv) (standIn 1000 0 up) up tilt 0%nat <> Continuous /\
  fst (Sample_f_trace (E := maxEnv) 0 (standIn 999 0 up) (Vec 1 0 0) (Pt2 0 0)
         true 0%nat) <> SampleDiscrete /\
  fst (Sample_f_trace (E := maxEnv) 0 (standIn 1000 0 up) (Vec 1 0 0) (Pt2 0 0)
         true 0%nat) <> SampleContinuous.
Proof.
  assert (Hz : R_eqb 0 0 = true) by (apply R_eqb_true; reflexivity).
  split.
  { apply guard_branch_not_selected.
    apply (f_trace_guarded (E := maxEnv)). apply passes_guards_tilt. }
  split.
  { apply guard_branch_not_selected.
    apply (f_trace_guarded (E := maxEnv)). apply passes_guards_tilt. }
  split.
  - unfold Sample_f_trace.
    change (feqb (vz (Vec 1 0 0)) (of_Z 0)) with (R_eqb 0 0).
    rewrite Hz. discriminate.
  - unfold Sample_f_trace.
    change (feqb (vz (Vec 1 0 0)) (of_Z 0)) with (R_eqb 0 0).
    rewrite Hz. discriminate.
Qed.

Lemma f_continuous_closed_form_witness :
  fst (f (E := maxEnv) (standIn 1000 0 up) up up 0%nat) =
  microfacet_closed_form (E := maxEnv) (standIn 1000 0 up) up up.
Proof.
  apply (f_continuous_closed_form (E := maxEnv) (standIn 1000 0 up) up up 0%nat).
  - apply passes_guards_up. lia.
  - cbn. lia.
Defined.

(** C8 fails when the estimate is zero. With 1000 flakes, from [up] to
    [tilt] (non-degenerate directions) and a cone of half-angle 0, no
    cached reflection falls in the cone; [f] returns zero, which is not the
    closed-form value. *)
Lemma f_continuous_closed_form_counterexample :
  (1000 <= flakenumber (standIn 1000 0 up))%Z /\
  AbsCosTheta up <> 0 /\ AbsCosTheta tilt <> 0 /\ vadd tilt up <> vzero /\
  fst (f (E := maxEnv) (standIn 1000 0 up) up tilt 0%nat) = sZero /\
  fst (f (E := maxEnv) (standIn 1000 0 up) up tilt 0%nat) <>
  microfacet_closed_form (E := maxEnv) (standIn 1000 0 up) up tilt.
Proof.
  assert (Hz : fst (f (E := maxEnv) (standIn 1000 0 up) up tilt 0%nat) = sZero).
  { apply (f_trace_guarded (E := maxEnv)). apply passes_guards_tilt. }
  split. { cbn. lia. }
  split. { unfold AbsCosTheta. cbn. rewrite Rabs_R1. lra. }
  split. { unfold AbsCosTheta. cbn. rewrite Rabs_pos_eq; lra. }
  split. { intros H. apply (f_equal (@vz R)) in H. cbn in H. lra. }
  split; [exact Hz|].
  rewrite Hz. intros H. symmetry in H. revert H.
  apply closed_form_standIn_nonzero. cbn. lra.
Qed.

(** *** Runs of [Sample_f] in the continuous regime *)

Lemma SameHemisphere_up_up : SameHemisphere up up = true.
Proof. unfold SameHemisphere. cbn. apply R_ltb_true. lra. Qed.

Lemma Reflect_up_up : Reflect up up = up.
Proof.
  unfold Reflect, vadd, vneg, vscale, up. rewrite Dot_R. cbn. f_equal; ring.
Qed.

Lemma Reflect_up_down : Reflect up (Vec 0 0 (-1)) = up.
Proof.
  unfold Reflect, vadd, vneg, vscale, up. rewrite Dot_R. cbn. f_equal; ring.
Qed.


(** The value of [f] from [up] to [up] with at least 1000 flakes. *)
Lemma f_up_up n swh s :
  (1000 <= n)%Z ->
  fst (f (E := maxEnv) (standIn n 0 swh) up up s) =
  microfacet_closed_form (E := maxEnv) (standIn n 0 swh) up up.
Proof.
  intros Hn. unfold f.
  rewrite (f_trace_selected (E := maxEnv) _ _ _ _
             (passes_guards_up n swh s ltac:(lia))).
  cbv zeta. cbn [flakenumber standIn].
  assert (Hlt : (n <? 1000)%Z = false) by (apply Z.ltb_ge; exact Hn).
  rewrite Hlt. reflexivity.
Qed.


(** Sampling the half-vector [-up]: the mirror direction is again [up],
    and the density is negative. *)
Lemma Sample_f_down fuel u s :
  exists s',
  Sample_f (E := maxEnv) fuel (standIn 1000 0 (Vec 0 0 (-1))) up u true s =
  Some (mkSample
          (microfacet_closed_form (E := maxEnv) (standIn 1000 0 (Vec 0 0 (-1)))
             up up)
          (Some up) (Some (1 / (4 * -1))), s').
Proof.
  eexists.
  rewrite (Sample_f_continuous (E := maxEnv)) by
    (try exact up_not_horizontal; cbn; lia).
  cbn [distribution_Sample_wh distribution_Pdf standIn flakenumber].
  cbv zeta. rewrite Reflect_up_down, SameHemisphere_up_up.
  rewrite f_up_up by lia.
  assert (Hd : Dot up (Vec 0 0 (-1)) = -1) by (rewrite Dot_R; cbn; ring).
  rewrite Hd. reflexivity.
Qed.



(** *** A run of [Sample_f] in the discrete regime *)

Lemma GenerateBRDFi_max fuel g s :
  GenerateBRDFi (E := maxEnv) (S fuel) up g s = Some (up, S (S s)).
Proof.
  cbn [GenerateBRDFi]. rewrite RandomVector_max.
  rewrite (Normalize_unit up Dot_up_up), Dot_up_up.
  assert (Hc : R_leb (cos g) 1 = true).
  { apply R_leb_true. apply COS_bound. }
  cbn [fleb fcos RScalar]. rewrite Hc. reflexivity.
Qed.

Lemma BinarySearch_max :
  BinarySearch 3 (repeat up 3) (0 :: running 0 (repeat 1 3)) (0 + 1 + 1 + 1) 3
  = Some up.
Proof.
  destruct (bs_loop_finds (repeat up 3) (0 :: running 0 (repeat 1 3))
              (0 + 1 + 1 + 1) 3%nat 0%Z 3%Z) as (i & Hi & Hres & _).
  - lia.
  - unfold at_. simpl. lra.
  - simpl. lia.
  - unfold BinarySearch. rewrite Hres. f_equal.
    unfold at_. apply nth_repeat_lt. lia.
Qed.

(** With three flakes, [Sample_f] returns from its discrete branch with
    [wi = up] and the density of a call of [Pdf]. *)
Lemma Sample_f_discrete_max g swh u :
  exists r s',
    Sample_f (E := maxEnv) 3 (standIn 3 g swh) up u true 0%nat = Some (r, s') /\
    s_wi r = Some up /\
    s_pdf r = Some (fst (Pdf (E := maxEnv) (standIn 3 g swh) up up 9%nat)).
Proof.
  unfold Sample_f, Sample_f_trace.
  change (feqb (vz up) (of_Z 0)) with (R_eqb (vz up) 0).
  rewrite up_not_horizontal. cbn [flakenumber standIn gamma].
  change (3 <=? 0)%Z with false. cbv iota.
  rewrite CreateReflectionCache_max. cbv zeta. cbn [ctable rcache].
  change (3 <? 1000)%Z with true. cbv iota. cbn [snd].
  rewrite RandomFloat_max.
  change (Z.to_nat 3) with 3%nat.
  assert (Ht : at_ (0 :: running 0 (repeat 1 3)) 3 (of_Z 0) = 0 + 1 + 1 + 1)
    by reflexivity.
  rewrite Ht, BinarySearch_max.
  change (S (0 + 2 * 3)) with 7%nat.
  rewrite GenerateBRDFi_max, SameHemisphere_up_up. cbn [negb].
  destruct (Pdf (E := maxEnv) (standIn 3 g swh) up up 9%nat) as [p s4].
  destruct (f (E := maxEnv) (standIn 3 g swh) up up s4) as [v s5].
  eexists. eexists. split; [reflexivity|]. split; reflexivity.
Qed.

Lemma Sample_f_density_agrees_with_Pdf_witness :
  (exists r s' p,
     Sample_f (E := maxEnv) 3 (standIn 3 0 up) up (Pt2 0 0) true 0%nat
       = Some (r, s') /\
     s_pdf r = Some p /\
     exists wi s0, s_wi r = Some wi /\
                   p = fst (Pdf (E := maxEnv) (standIn 3 0 up) up wi s0)) /\
  (exists r s',
     Sample_f (E := maxEnv) 0 (standIn 1000 0 up) up (Pt2 0 0) true 0%nat
       = Some (r, s') /\
     s_wi r = Some (Reflect up up) /\
     s_pdf r = Some (1 / (4 * Dot up up)) /\
     forall s0, fst (Pdf (E := maxEnv) (standIn 1000 0 up) up (Reflect up up) s0)
                = 1 / (4 * Dot up up)).
Proof.
  split.
  - destruct (Sample_f_discrete_max 0 up (Pt2 0 0)) as (r & s' & Hrun & _ & Hp).
    exists r, s'. eexists. split; [exact Hrun|]. split; [exact Hp|].
    apply (proj1 (Sample_f_density_agrees_with_Pdf (E := maxEnv)
                    (standIn 3 0 up) up (Pt2 0 0) 3%nat 0%nat)
             ltac:(cbn; lia) r s' _ Hrun Hp).
  - apply (proj2 (Sample_f_density_agrees_with_Pdf (E := maxEnv)
                    (standIn 1000 0 up) up (Pt2 0 0) 0%nat 0%nat)).
    + cbn. lia.
    + exact up_not_horizontal.
    + exact Dot_up_up.
    + cbn [distribution_Sample_wh standIn]. rewrite Dot_up_up. lra.
    + cbn [distribution_Sample_wh standIn]. rewrite Reflect_up_up.
      exact SameHemisphere_up_up.
Defined.

(** C4 fails in the continuous regime when the sampled half-vector points
    away from [wo]. With 1000 flakes, [wo = up] and the unit half-vector
    [wh = (0, 0, -1)], the mirror direction is [wi = up]; [Sample_f]
    reports the density 1 / (4 * -1) = -1/4, but [Pdf(wo, wi)], from
    [Normalize(wo + wi) = up], returns 1 / (4 * 1) = 1/4 at every
    generator state. *)
Lemma Sample_f_density_counterexample :
  exists r s',
    Sample_f (E := maxEnv) 0 (standIn 1000 0 (Vec 0 0 (-1))) up (Pt2 0 0) true
      0%nat = Some (r, s') /\
    s_wi r = Some up /\
    s_pdf r = Some (1 / (4 * -1)) /\
    forall s0,
      fst (Pdf (E := maxEnv) (standIn 1000 0 (Vec 0 0 (-1))) up up s0)
      = 1 / (4 * 1) /\
      fst (Pdf (E := maxEnv) (standIn 1000 0 (Vec 0 0 (-1))) up up s0)
      <> 1 / (4 * -1).
Proof.
  destruct (Sample_f_down 0%nat (Pt2 0 0) 0%nat) as [s' Hrun].
  eexists. exists s'. split; [exact Hrun|]. cbn [s_wi s_pdf].
  split; [reflexivity|]. split; [reflexivity|].
  intros s0.
  assert (Hp : fst (Pdf (E := maxEnv) (standIn 1000 0 (Vec 0 0 (-1))) up up s0)
               = 1 / (4 * 1)).
  { rewrite (Pdf_continuous_regime (E := maxEnv)).
    - unfold Pdf_continuous. cbn [distribution_Pdf standIn].
      assert (Hn : Normalize (vadd up up) = up).
      { rewrite <- Reflect_up_up at 2.
        apply Normalize_mirror; rewrite Dot_up_up; lra. }
      rewrite Hn, Dot_up_up. reflexivity.
    - exact SameHemisphere_up_up.
    - cbn. lia.
    - apply R_eqb_true. reflexivity. }
  split; [exact Hp|]. rewrite Hp. lra.
Qed.

(** * Further properties of the code *)

Section MoreGenericFacts.

Context {F : Type} {SF : Scalar F} {E : Env F}.

Local Open Scope scalar_scope.

(** X1. The trailing [return] statements of [f] (line 175), of [Pdf] (line
    244) and of [Sample_f] (line 215) are never executed: the branch
    conditions before them are exhaustive. *)
Theorem trailing_returns_unreachable b wo wi u has_pdf fuel s :
  f_branch b wo wi s <> Neither /\
  Pdf_branch b wo wi s <> PdfNeither /\
  fst (Sample_f_trace fuel b wo u has_pdf s) <> SampleNeither.
Proof.
  split; [|split].
  - destruct (passes_guards b wo wi s) eqn:Hg.
    + rewrite (f_branch_selected b wo wi s Hg).
      destruct (flakenumber b <? 1000)%Z; discriminate.
    + destruct (f_trace_guarded b wo wi s Hg) as [H _].
      intros Hn. rewrite Hn in H. discriminate H.
  - unfold Pdf_branch, Pdf_trace.
    destruct (negb (SameHemisphere wo wi)); [discriminate|].
    destruct (flakenumber b <=? 0)%Z; [discriminate|].
    destruct (CreateReflectionCache wo emptyCache (flakenumber b) s) as [ch s1].
    destruct (snd (CalculateDistribution wi (weights ch) (rcache ch)
                     (flakenumber b) (gamma b))
              != snd (CalculateDistribution wi (weights ch) (rcache ch)
                        (flakenumber b) (gamma b))); [discriminate|].
    cbv zeta.
    destruct (Z.ltb_spec (flakenumber b) 1000) as [Hlt|Hge]; cbn [andb].
    + match goal with
      | |- context [if ?c then _ else _] => destruct c
      end; cbn [negb orb]; [discriminate|].
      rewrite orb_true_r. discriminate.
    + destruct (Z.leb_spec 1000 (flakenumber b)) as [_|Hlt]; [|lia].
      discriminate.
  - unfold Sample_f_trace.
    destruct (vz wo == #0); [discriminate|].
    destruct (flakenumber b <=? 0)%Z; [discriminate|].
    destruct (CreateReflectionCache wo emptyCache (flakenumber b) s) as [ch s1].
    cbv zeta.
    destruct (Z.ltb_spec (flakenumber b) 1000) as [Hlt|Hge]; [discriminate|].
    destruct (Z.leb_spec 1000 (flakenumber b)) as [_|Hlt]; [|lia].
    discriminate.
Qed.

(** X2. When [wo.z == 0] or the flake count is not positive, [Sample_f]
    returns zero scattering at once: it writes neither [wi] nor [pdf], and
    draws nothing from the generator. *)
Theorem Sample_f_degenerate b wo u has_pdf fuel s :
  (vz wo == #0) = true \/ (flakenumber b <= 0)%Z ->
  Sample_f_trace fuel b wo u has_pdf s =
  (SampleDegenerate, Some (mkSample sZero None None, s)).
Proof.
  intros H. unfold Sample_f_trace.
  destruct (vz wo == #0); [reflexivity|].
  destruct H as [H|H]; [discriminate H|].
  destruct (Z.leb_spec (flakenumber b) 0) as [_|Hgt]; [reflexivity|lia].
Qed.

(** X3. With at least 1000 flakes and [wo.z != 0], [Sample_f] always
    returns, whatever the iteration budget: it stores the mirror direction
    [wi = Reflect(wo, wh)] of the sampled half-vector, and stores a density
    and a value of [f] exactly when [wi] lies in the hemisphere of [wo]. *)
Theorem Sample_f_continuous_returns b wo u fuel s :
  (vz wo == #0) = false ->
  (1000 <= flakenumber b)%Z ->
  exists r s',
    Sample_f fuel b wo u true s = Some (r, s') /\
    s_wi r = Some (Reflect wo (distribution_Sample_wh b wo u)) /\
    (SameHemisphere wo (Reflect wo (distribution_Sample_wh b wo u)) = false ->
     s_value r = sZero /\ s_pdf r = None) /\
    (SameHemisphere wo (Reflect wo (distribution_Sample_wh b wo u)) = true ->
     s_pdf r <> None /\
     exists s0, s_value r =
       fst (f b wo (Reflect wo (distribution_Sample_wh b wo u)) s0)).
Proof.
  intros Hz Hn. rewrite (Sample_f_continuous b wo u true fuel s Hz Hn).
  cbv zeta.
  destruct (SameHemisphere wo (Reflect wo (distribution_Sample_wh b wo u))).
  - eexists. eexists. split; [reflexivity|]. cbn [s_wi s_value s_pdf].
    split; [reflexivity|]. split; [discriminate|].
    intros _. split; [discriminate|]. eexists. reflexivity.
  - eexists. eexists. split; [reflexivity|]. cbn [s_wi s_value s_pdf].
    split; [reflexivity|]. split; [intros _; split; reflexivity|].
    discriminate.
Qed.

(** X4. [Pdf] returns 0 when the two directions are not in the same
    hemisphere, when the flake count is not positive, and when the raw
    density estimate is NaN ([DK[1] != DK[1]]). *)
Theorem Pdf_degenerate_zero b wo wi s :
  SameHemisphere wo wi = false \/ (flakenumber b <= 0)%Z \/
  (snd (estimate b wo wi s) != snd (estimate b wo wi s)) = true ->
  fst (Pdf b wo wi s) = #0.
Proof.
  intros H. unfold Pdf, Pdf_trace. unfold estimate in H.
  destruct (SameHemisphere wo wi); cbn [negb]; [|reflexivity].
  destruct (Z.leb_spec (flakenumber b) 0) as [Hle|Hgt]; [reflexivity|].
  destruct (CreateReflectionCache wo emptyCache (flakenumber b) s) as [ch s1].
  cbn [fst snd] in *.
  destruct H as [H|[H|H]]; [discriminate H | lia |].
  rewrite H. reflexivity.
Qed.

(** X5. Unlike [f], [Pdf] does fall back to the continuous formula: for
    directions of one hemisphere, a positive flake count and an estimate
    that is not NaN, [Pdf] takes its continuous branch exactly when
    [n >= 1000] or the raw estimate [DK[1]] is zero, and then returns
    [distribution->Pdf(wo, wh) / (4 Dot(wo, wh))] for
    [wh = Normalize(wo + wi)]. *)
Theorem Pdf_continuous_fallback b wo wi s :
  SameHemisphere wo wi = true ->
  (0 < flakenumber b)%Z ->
  (snd (estimate b wo wi s) == snd (estimate b wo wi s)) = true ->
  (Pdf_branch b wo wi s = PdfContinuous <->
   (1000 <= flakenumber b)%Z \/ (snd (estimate b wo wi s) == #0) = true) /\
  (Pdf_branch b wo wi s = PdfContinuous ->
   fst (Pdf b wo wi s) = Pdf_continuous b wo wi).
Proof.
  intros Hh Hn. unfold Pdf_branch, Pdf, Pdf_trace, estimate.
  rewrite Hh. cbn [negb].
  assert (H0 : (flakenumber b <=? 0)%Z = false) by (apply Z.leb_gt; lia).
  assert (Hnz : (flakenumber b =? 0)%Z = false) by (apply Z.eqb_neq; lia).
  rewrite H0.
  destruct (CreateReflectionCache wo emptyCache (flakenumber b) s) as [ch s1].
  cbn [fst snd].
  set (DK := CalculateDistribution wi (weights ch) (rcache ch)
               (flakenumber b) (gamma b)).
  intros Heq. rewrite Heq, Hnz. cbn [negb]. cbv zeta. rewrite !andb_true_r.
  destruct (Z.ltb_spec (flakenumber b) 1000) as [Hlt|Hge]; cbn [andb].
  - destruct (snd DK == #0); cbn [negb orb].
    + rewrite orb_true_r. cbn [fst]. split; [|reflexivity].
      split; [intros _; right; reflexivity | reflexivity].
    + cbn [fst]. split; [|discriminate].
      split; [discriminate | intros [H|H]; [lia | discriminate H]].
  - destruct (Z.leb_spec 1000 (flakenumber b)) as [_|Hlt]; [|lia].
    cbn [orb fst]. split; [|reflexivity].
    split; [intros _; left; exact Hge | reflexivity].
Qed.

(** *** The estimator on caches inside and outside the cone *)

Lemma dist_loop_outside (wi : Vector3 F) ws rc g : forall k i D,
  (0 <= i)%Z ->
  (forall j, (i <= j < i + Z.of_nat k)%Z ->
     (Dot wi (at_ rc j vzero) >=? fcos g) = false) ->
  dist_loop k wi ws rc g i D = D.
Proof.
  induction k as [|k IH]; intros i D Hi Hout; [reflexivity|].
  cbn [dist_loop]. rewrite (Hout i) by lia.
  apply IH; [lia|]. intros j Hj. apply Hout. lia.
Qed.

Lemma dist_loop_inside (wi : Vector3 F) rc g (suf : list F) : forall pre D,
  (forall j, (Z.of_nat (length pre) <= j
              < Z.of_nat (length pre) + Z.of_nat (length suf))%Z ->
     (Dot wi (at_ rc j vzero) >=? fcos g) = true) ->
  dist_loop (length suf) wi (pre ++ suf) rc g (Z.of_nat (length pre)) D =
  fold_left fadd suf D.
Proof.
  induction suf as [|w suf IH]; intros pre D Hin; [reflexivity|].
  cbn [length dist_loop fold_left].
  rewrite (Hin (Z.of_nat (length pre))) by (cbn [length]; lia).
  assert (Hw : at_ (pre ++ w :: suf) (Z.of_nat (length pre)) #0 = w).
  { unfold at_. rewrite Nat2Z.id. apply nth_middle. }
  rewrite Hw.
  replace (pre ++ w :: suf) with ((pre ++ [w]) ++ suf)
    by (rewrite <- app_assoc; reflexivity).
  replace (Z.of_nat (length pre) + 1)%Z with (Z.of_nat (length (pre ++ [w])))
    by (rewrite length_app; cbn [length]; lia).
  apply IH. intros j Hj. apply Hin.
  rewrite length_app in Hj. cbn [length] in *. lia.
Qed.

(** X6. [CalculateDistribution] on [n] weights: when no cached direction
    among the first [n] passes the cone test, the raw estimate is exactly 0
    (and the normalised one 0 / 10^8); when all of them pass, the raw
    estimate is the sum of all the weights, added in order. *)
Theorem CalculateDistribution_cone_cases (wi : Vector3 F) ws rc n g :
  length ws = Z.to_nat n ->
  ((forall i, (0 <= i < n)%Z ->
      (Dot wi (at_ rc i vzero) >=? fcos g) = false) ->
   CalculateDistribution wi ws rc n g = (#0 / #100000000, #0)) /\
  ((forall i, (0 <= i < n)%Z ->
      (Dot wi (at_ rc i vzero) >=? fcos g) = true) ->
   snd (CalculateDistribution wi ws rc n g) = total ws).
Proof.
  intros Hlen. split; intros H; unfold CalculateDistribution; cbv zeta.
  - rewrite dist_loop_outside; [reflexivity | lia |].
    intros j Hj. apply H. lia.
  - cbn [snd]. rewrite <- Hlen.
    apply (dist_loop_inside wi rc g ws [] #0).
    intros j Hj. apply H. cbn [length] in Hj. lia.
Qed.

(** *** The cone rejection sampler *)

(** The [k]-th candidate drawn from generator state [s]. *)
Lemma GenerateBRDFi_step fuel r g s :
  GenerateBRDFi (S fuel) r g s =
  if Dot (Normalize (fst (RandomVector s))) r >=? fcos g
  then Some (Normalize (fst (RandomVector s)), S (S s))
  else GenerateBRDFi fuel r g (S (S s)).
Proof. reflexivity. Qed.

Lemma GenerateBRDFi_in_cone fuel : forall r g s i s',
  GenerateBRDFi fuel r g s = Some (i, s') ->
  (Dot i r >=? fcos g) = true.
Proof.
  induction fuel as [|fuel IH]; intros r g s i s' H; [discriminate H|].
  rewrite GenerateBRDFi_step in H.
  destruct (Dot (Normalize (fst (RandomVector s))) r >=? fcos g) eqn:Ht.
  - injection H as <- <-. exact Ht.
  - exact (IH r g _ i s' H).
Qed.

(** X7. Whatever [GenerateBRDFi] returns is the first candidate, among the
    normalised random vectors it draws two numbers at a time, that passes
    the cone test [Dot(i, r) >= cos(gamma)]; all earlier candidates failed
    it. *)
Theorem GenerateBRDFi_first_accepted fuel : forall r g s i s',
  GenerateBRDFi fuel r g s = Some (i, s') ->
  (Dot i r >=? fcos g) = true /\
  exists k, (k < fuel)%nat /\ s' = (s + 2 * S k)%nat /\
    i = Normalize (fst (RandomVector (s + 2 * k)%nat)) /\
    forall j, (j < k)%nat ->
      (Dot (Normalize (fst (RandomVector (s + 2 * j)%nat))) r >=? fcos g) = false.
Proof.
  induction fuel as [|fuel IH]; intros r g s i s' H; [discriminate H|].
  rewrite GenerateBRDFi_step in H.
  destruct (Dot (Normalize (fst (RandomVector s))) r >=? fcos g) eqn:Ht.
  - injection H as <- <-. split; [exact Ht|].
    exists 0%nat. split; [lia|]. split; [lia|].
    split; [rewrite Nat.add_0_r; reflexivity|]. intros j Hj. lia.
  - destruct (IH r g (S (S s)) i s' H) as (Hc & k & Hk & Hs & Hi & Hrej).
    split; [exact Hc|]. exists (S k). split; [lia|]. split; [lia|].
    split.
    + rewrite Hi. do 3 f_equal. lia.
    + intros [|j] Hj; [rewrite Nat.add_0_r; exact Ht|].
      specialize (Hrej j ltac:(lia)).
      replace (s + 2 * S j)%nat with (S (S s) + 2 * j)%nat by lia. exact Hrej.
Qed.

(** X8. [GenerateBRDFi] has no way out but acceptance: while every
    candidate the generator yields fails the cone test, it is still in its
    loop after any number of iterations. *)
Theorem GenerateBRDFi_starves r g s fuel :
  (forall k,
     (Dot (Normalize (fst (RandomVector (s + 2 * k)%nat))) r >=? fcos g) = false) ->
  GenerateBRDFi fuel r g s = None.
Proof.
  intros Hrej. revert s Hrej.
  induction fuel as [|fuel IH]; intros s Hrej; [reflexivity|].
  rewrite GenerateBRDFi_step.
  pose proof (Hrej 0%nat) as H0. rewrite Nat.add_0_r in H0. rewrite H0.
  apply IH. intros k. specialize (Hrej (S k)).
  replace (S (S s) + 2 * k)%nat with (s + 2 * S k)%nat by lia. exact Hrej.
Qed.

(** *** The cache search on arbitrary tables *)

Lemma middle_inside (a b : Z) :
  (a <= b)%Z ->
  (a <= a + Z.quot (b - a) 2 <= b)%Z /\
  ((a < b)%Z -> (a + Z.quot (b - a) 2 < b)%Z).
Proof.
  intros H. rewrite Z.quot_div_nonneg by lia.
  pose proof (Z.div_mod (b - a) 2 ltac:(lia)) as Hd.
  pose proof (Z.mod_pos_bound (b - a) 2 ltac:(lia)) as Hm.
  lia.
Qed.

Lemma bs_loop_sound (cache : list (Vector3 F)) (ct : list F) (value : F) (n : Z) :
  forall fuel start end_ x,
  (0 <= start <= end_)%Z -> (end_ <= n)%Z -> (start < n)%Z ->
  bs_loop fuel cache ct value start end_ = Some x ->
  exists i, (0 <= i < n)%Z /\ x = at_ cache i vzero /\
    (at_ ct i #0 <? value) = true /\ (at_ ct (i + 1) #0 >=? value) = true.
Proof.
  induction fuel as [|fuel IH]; intros start end_ x Hs He Hn H;
    [discriminate H|].
  cbn [bs_loop] in H.
  destruct (Z.leb_spec start end_) as [_|Hlt]; [|lia].
  destruct ((at_ ct start #0 <? value) && (at_ ct (start + 1) #0 >=? value))
    eqn:Hhit.
  - injection H as <-. apply andb_prop in Hhit. destruct Hhit as [H1 H2].
    exists start. repeat split; try assumption; lia.
  - destruct (middle_inside start end_ ltac:(lia)) as [Hm1 Hm2].
    destruct (at_ ct (start + Z.quot (end_ - start) 2) #0 >=? value).
    + apply (IH start (start + Z.quot (end_ - start) 2)%Z x); try lia. exact H.
    + apply (IH (start + Z.quot (end_ - start) 2)%Z end_ x); try lia. exact H.
Qed.

Lemma BinarySearch_index fuel (cache : list (Vector3 F)) (ct : list F)
    (value : F) (n : Z) (x : Vector3 F) :
  (1 <= n)%Z ->
  BinarySearch fuel cache ct value n = Some x ->
  exists i, (0 <= i < n)%Z /\ x = at_ cache i vzero.
Proof.
  intros Hn H. unfold BinarySearch in H.
  destruct (bs_loop_sound cache ct value n fuel 0%Z n x) as (i & Hi & Hx & _);
    try lia; [exact H|].
  exists i. split; assumption.
Qed.

(** X9. For [n >= 1] and any table, whatever [BinarySearch] returns is
    [cache[i]] for an index [0 <= i < n] at which its own test
    [ctable[i] < value && ctable[i+1] >= value] succeeded: the search
    entry handed back is one of the [n] cached directions. *)
Theorem BinarySearch_sound fuel (cache : list (Vector3 F)) (ct : list F)
    (value : F) (n : Z) (x : Vector3 F) :
  (1 <= n)%Z ->
  BinarySearch fuel cache ct value n = Some x ->
  exists i, (0 <= i < n)%Z /\ x = at_ cache i vzero /\
    (at_ ct i #0 <? value) = true /\ (at_ ct (i + 1) #0 >=? value) = true.
Proof.
  intros Hn H. unfold BinarySearch in H.
  apply (bs_loop_sound cache ct value n fuel 0%Z n x); try lia. exact H.
Qed.

(** *** The shape of the cache *)

(** X11. [CreateReflectionCache], called on empty vectors, leaves
    [max(n, 0)] normals, reflected directions and weights and one more
    table entry, and has drawn exactly two numbers per entry; for [n <= 0]
    the cache is empty, the table is [[0]] and the generator is untouched. *)
Theorem CreateReflectionCache_shape wo n s :
  let ch := fst (CreateReflectionCache wo emptyCache n s) in
  let s' := snd (CreateReflectionCache wo emptyCache n s) in
  length (normals ch) = Z.to_nat n /\
  length (rcache ch) = Z.to_nat n /\
  length (weights ch) = Z.to_nat n /\
  length (ctable ch) = S (Z.to_nat n) /\
  s' = (s + 2 * Z.to_nat n)%nat /\
  ((n <= 0)%Z -> ch = mkCache [] [] [] [#0] /\ s' = s).
Proof.
  rewrite CreateReflectionCache_entries. cbv zeta. cbn [fst snd].
  cbn [normals rcache weights ctable length].
  rewrite running_length, !length_map, entries_length.
  repeat split; try reflexivity.
  - replace (Z.to_nat n) with 0%nat by lia. reflexivity.
  - replace (Z.to_nat n) with 0%nat by lia. lia.
Qed.

(** *** The direction sampled in the discrete regime *)

(** X12. In the discrete regime ([0 < n < 1000], [wo.z != 0]), whenever
    [Sample_f] returns, the direction [wi] it stored passed the cone test
    [Dot(wi, r) >= cos(gamma)] against one of the [n] reflected directions
    [r] of the cache built for this call. *)
Theorem Sample_f_discrete_in_cone b wo u has_pdf fuel s r s' :
  (vz wo == #0) = false ->
  (0 < flakenumber b < 1000)%Z ->
  Sample_f fuel b wo u has_pdf s = Some (r, s') ->
  exists wi i,
    s_wi r = Some wi /\ (0 <= i < flakenumber b)%Z /\
    (Dot wi (at_ (rcache (fst (CreateReflectionCache wo emptyCache
                                 (flakenumber b) s))) i vzero)
     >=? fcos (gamma b)) = true.
Proof.
  intros Hz Hn. unfold Sample_f, Sample_f_trace. rewrite Hz.
  assert (H0 : (flakenumber b <=? 0)%Z = false) by (apply Z.leb_gt; lia).
  assert (H1 : (flakenumber b <? 1000)%Z = true) by (apply Z.ltb_lt; lia).
  rewrite H0.
  destruct (CreateReflectionCache wo emptyCache (flakenumber b) s) as [ch s1].
  cbv zeta. rewrite H1. cbn [fst snd].
  destruct (RandomFloat #0 (at_ (ctable ch) (flakenumber b) #0) s1)
    as [randomvalue s2].
  destruct (BinarySearch fuel (rcache ch) (ctable ch) randomvalue
              (flakenumber b)) as [r0|] eqn:Hbs; [|discriminate].
  destruct (GenerateBRDFi fuel r0 (gamma b) s2) as [[wi s3]|] eqn:Hgen;
    [|discriminate].
  apply BinarySearch_index in Hbs; [|lia].
  destruct Hbs as (i & Hi & ->).
  apply GenerateBRDFi_in_cone in Hgen.
  destruct (SameHemisphere wo wi); cbn [negb].
  - destruct (if has_pdf
              then let '(p, s4) := Pdf b wo wi s3 in (Some p, s4)
              else (None, s3)) as [pdf s4].
    destruct (f b wo wi s4) as [v s5].
    intros H. injection H as <- _. exists wi, i. cbn [s_wi].
    split; [reflexivity|]. split; [exact Hi | exact Hgen].
  - intros H. injection H as <- _. exists wi, i. cbn [s_wi].
    split; [reflexivity|]. split; [exact Hi | exact Hgen].
Qed.

End MoreGenericFacts.

Section MoreRealFacts.

Context {E : Env R}.

Local Open Scope R_scope.

Lemma RandomFloat_in_range_aux (a b : R) (s : Rng) :
  (0 < RAND_MAX)%Z ->
  (0 <= draws s <= RAND_MAX)%Z ->
  a <= b ->
  a <= fst (RandomFloat a b s) <= b.
Proof.
  intros HM Hk Hab. unfold RandomFloat, rand. cbn.
  assert (HM' : 0 < IZR RAND_MAX) by (apply IZR_lt; exact HM).
  assert (Hk0 : 0 <= IZR (draws s)) by (apply IZR_le; lia).
  assert (Hk1 : IZR (draws s) <= IZR RAND_MAX) by (apply IZR_le; lia).
  set (t := IZR (draws s) / IZR RAND_MAX).
  assert (Ht : 0 <= t <= 1).
  { unfold t. split.
    - apply Rle_mult_inv_pos; assumption.
    - apply (Rmult_le_reg_r (IZR RAND_MAX)); [exact HM'|].
      unfold Rdiv. rewrite Rmult_assoc, Rinv_l by lra. lra. }
  nra.
Qed.

(** X13. In exact arithmetic, with [rand()] in [0, RAND_MAX] and
    [a <= b], [RandomFloat(a, b)] lies in [a, b]; it is [a] for the draw 0
    and [b] for the draw [RAND_MAX]. *)
Theorem RandomFloat_in_range (a b : R) (s : Rng) :
  (0 < RAND_MAX)%Z ->
  (0 <= draws s <= RAND_MAX)%Z ->
  a <= b ->
  a <= fst (RandomFloat a b s) <= b /\
  (draws s = 0%Z -> fst (RandomFloat a b s) = a) /\
  (draws s = RAND_MAX -> fst (RandomFloat a b s) = b).
Proof.
  intros HM Hk Hab.
  split; [exact (RandomFloat_in_range_aux a b s HM Hk Hab)|].
  assert (HM' : 0 < IZR RAND_MAX) by (apply IZR_lt; exact HM).
  unfold RandomFloat, rand. cbn. split.
  - intros H0. rewrite H0. unfold Rdiv. ring.
  - intros H1. rewrite H1. field. lra.
Qed.

(** X14. In exact arithmetic [RandomVector] always returns a unit vector,
    and with its second draw in [0, RAND_MAX] the z component is that draw
    mapped linearly onto [-1, 1]. *)
Theorem RandomVector_on_sphere (s : Rng) :
  (0 < RAND_MAX)%Z ->
  (0 <= draws (S s) <= RAND_MAX)%Z ->
  Dot (fst (RandomVector s)) (fst (RandomVector s)) = 1 /\
  vz (fst (RandomVector s)) = -1 + IZR (draws (S s)) / IZR RAND_MAX * 2.
Proof.
  intros HM Hk. split; [apply RandomVector_unit|].
  pose proof (RandomFloat_in_range_aux (-1) 1 (S s) HM Hk ltac:(lra)) as Hc.
  unfold RandomVector, RandomFloat, rand in *. cbn in *.
  rewrite cos_acos by lra. lra.
Qed.

(** *** The entries of the cache *)

Lemma Reflect_length (wo m : Vector3 R) :
  Dot m m = 1 -> Dot (Reflect wo m) (Reflect wo m) = Dot wo wo.
Proof.
  rewrite !Dot_R. destruct wo as [a1 a2 a3], m as [b1 b2 b3]. cbn.
  intros Hu.
  set (d := a1 * b1 + a2 * b2 + a3 * b3).
  transitivity (a1 * a1 + a2 * a2 + a3 * a3
                - 4 * d * (a1 * b1 + a2 * b2 + a3 * b3)
                + 4 * d * d * (b1 * b1 + b2 * b2 + b3 * b3)); [ring|].
  rewrite Hu. unfold d. ring.
Qed.

Lemma cache_entry_geometry wo s m r w s' :
  cache_entry wo s = (m, r, w, s') ->
  Dot m m = 1 /\
  (r = Reflect wo m \/ r = vscale (Reflect wo m) (-1)) /\
  Dot r r = Dot wo wo /\
  0 <= vz wo * vz r /\
  w = Rabs (Dot wo m).
Proof.
  intros He. destruct (cache_entry_weight wo s m r w s' He) as [Hu Hw].
  assert (Hm : Normalize (fst (RandomVector s)) = m).
  { exact (f_equal (fun t => fst (fst (fst t))) He). }
  assert (Hr : (if negb (SameHemisphere wo
                           (Reflect wo (Normalize (fst (RandomVector s)))))
                then vscale (Reflect wo (Normalize (fst (RandomVector s))))
                            (-1)
                else Reflect wo (Normalize (fst (RandomVector s)))) = r).
  { exact (f_equal (fun t => snd (fst (fst t))) He). }
  rewrite Hm in Hr. clear He Hm.
  split; [exact Hu|].
  pose proof (Reflect_length wo m Hu) as Hlen.
  destruct (SameHemisphere wo (Reflect wo m)) eqn:Hh; cbn [negb] in Hr;
    subst r.
  - split; [left; reflexivity|]. split; [exact Hlen|].
    split; [|exact Hw].
    unfold SameHemisphere in Hh. apply R_ltb_true in Hh.
    cbn [fmul of_Z RScalar] in Hh. lra.
  - split; [right; reflexivity|]. split.
    + rewrite <- Hlen. rewrite !Dot_R. cbn. ring.
    + split; [|exact Hw].
      unfold SameHemisphere in Hh. apply R_ltb_false in Hh.
      cbn [fmul of_Z RScalar] in Hh.
      change (vz (vscale (Reflect wo m) (-1))) with (vz (Reflect wo m) * -1).
      nra.
Qed.

Lemma entries_geometry k : forall wo s,
  Forall (fun e =>
            Dot (e_normal e) (e_normal e) = 1 /\
            (e_refl e = Reflect wo (e_normal e) \/
             e_refl e = vscale (Reflect wo (e_normal e)) (-1)) /\
            Dot (e_refl e) (e_refl e) = Dot wo wo /\
            0 <= vz wo * vz (e_refl e) /\
            e_weight e = Rabs (Dot wo (e_normal e)))
         (entries k wo s).
Proof.
  induction k as [|k IH]; intros wo s; [constructor|].
  rewrite entries_S.
  destruct (cache_entry wo s) as [[[m r] w] s1] eqn:He.
  constructor; [|apply IH].
  exact (cache_entry_geometry wo s m r w s1 He).
Qed.

(** X15. In exact arithmetic every entry [i < n] of the cache built for
    [wo] has a unit normal [m], a reflected direction [r] that is
    [Reflect(wo, m)] or its opposite, as long as [wo] and never in the
    hemisphere opposite to [wo] ([wo.z * r.z >= 0]), and the weight
    [|Dot(wo, m)|]. *)
Theorem CreateReflectionCache_entry_geometry wo n s i :
  (0 <= i < n)%Z ->
  let ch := fst (CreateReflectionCache wo emptyCache n s) in
  let m := at_ (normals ch) i vzero in
  let r := at_ (rcache ch) i vzero in
  let w := at_ (weights ch) i 0 in
  Dot m m = 1 /\
  (r = Reflect wo m \/ r = vscale (Reflect wo m) (-1)) /\
  Dot r r = Dot wo wo /\
  0 <= vz wo * vz r /\
  w = Rabs (Dot wo m).
Proof.
  intros Hi. rewrite CreateReflectionCache_entries. cbv zeta.
  cbn [fst normals rcache weights]. unfold at_.
  set (es := entries (Z.to_nat n) wo s).
  set (d := (vzero, vzero, 0) : Vector3 R * Vector3 R * R).
  assert (Hlen : (Z.to_nat i < length es)%nat).
  { unfold es. rewrite entries_length. lia. }
  rewrite (nth_indep (map e_normal es) vzero (e_normal d))
    by (rewrite length_map; exact Hlen).
  rewrite (nth_indep (map e_refl es) vzero (e_refl d))
    by (rewrite length_map; exact Hlen).
  rewrite (nth_indep (map e_weight es) 0 (e_weight d))
    by (rewrite length_map; exact Hlen).
  rewrite !map_nth.
  exact (proj1 (Forall_nth _ es) (entries_geometry (Z.to_nat n) wo s)
           (Z.to_nat i) d Hlen).
Qed.

(** *** The cache search on cumulative tables *)

(** X16. On a non-decreasing table, the entry whose cumulative interval
    contains the target is unique, and it is the one [BinarySearch]
    returns: if [table[i] < target <= table[i+1]] for some [i < n], the
    search returns [cache[i]] within [n] iterations. *)
Theorem BinarySearch_selects
    (cache : list (Vector3 R)) (ct : list R) (value : R) (n i : Z) (fuel : nat) :
  (forall a b, (0 <= a <= b)%Z -> (b <= n)%Z -> at_ ct a 0 <= at_ ct b 0) ->
  (0 <= i < n)%Z ->
  at_ ct i 0 < value <= at_ ct (i + 1) 0 ->
  (Z.to_nat n <= fuel)%nat ->
  BinarySearch fuel cache ct value n = Some (at_ cache i vzero).
Proof.
  intros Hmono Hi Hv Hfuel.
  assert (H0 : at_ ct 0 0 < value).
  { apply Rle_lt_trans with (at_ ct i 0); [apply Hmono; lia | lra]. }
  assert (Hn : value <= at_ ct n 0).
  { apply Rle_trans with (at_ ct (i + 1) 0); [lra | apply Hmono; lia]. }
  destruct (bs_loop_finds cache ct value fuel 0%Z n)
    as (j & Hj & Hres & Hjv); [lia | lra | lia |].
  unfold BinarySearch. rewrite Hres. do 2 f_equal.
  destruct (Z.lt_trichotomy i j) as [Hlt|[Heq|Hgt]]; [|congruence|].
  - exfalso.
    assert (at_ ct (i + 1) 0 <= at_ ct j 0) by (apply Hmono; lia). lra.
  - exfalso.
    assert (at_ ct (j + 1) 0 <= at_ ct i 0) by (apply Hmono; lia). lra.
Qed.

Lemma bs_loop_below (cache : list (Vector3 R)) (ct : list R) (value : R) :
  (forall i, value <= at_ ct i 0) ->
  forall fuel start end_, (0 <= start <= end_)%Z ->
  bs_loop fuel cache ct value start end_ = None.
Proof.
  intros Hlow. induction fuel as [|fuel IH]; intros start end_ Hs;
    [reflexivity|].
  cbn [bs_loop].
  destruct (Z.leb_spec start end_) as [_|Hlt]; [|lia].
  cbn [feqb fltb fleb RScalar of_Z].
  assert (H1 : R_ltb (at_ ct start 0) value = false).
  { apply R_ltb_false. apply Hlow. }
  rewrite H1. cbn [andb].
  assert (H2 : R_leb value (at_ ct (start + Z.quot (end_ - start) 2) 0) = true).
  { apply R_leb_true. apply Hlow. }
  rewrite H2. apply IH.
  destruct (middle_inside start end_ ltac:(lia)) as [Hm _]. lia.
Qed.

Lemma bs_loop_low_target (cache : list (Vector3 R)) (ct : list R) (value : R)
    (n : Z) :
  (forall i, (0 <= i <= n)%Z -> value <= at_ ct i 0) ->
  forall fuel start end_,
  (0 <= start <= end_)%Z -> (end_ <= n)%Z -> (start < n)%Z ->
  bs_loop fuel cache ct value start end_ = None.
Proof.
  intros Hlow. induction fuel as [|fuel IH]; intros start end_ Hs He Hn;
    [reflexivity|].
  cbn [bs_loop].
  destruct (Z.leb_spec start end_) as [_|Hlt]; [|lia].
  cbn [feqb fltb fleb RScalar of_Z].
  destruct (middle_inside start end_ ltac:(lia)) as [Hm _].
  assert (H1 : R_ltb (at_ ct start 0) value = false).
  { apply R_ltb_false. apply Hlow. lia. }
  rewrite H1. cbn [andb].
  assert (H2 : R_leb value (at_ ct (start + Z.quot (end_ - start) 2) 0) = true).
  { apply R_leb_true. apply Hlow. lia. }
  rewrite H2. apply IH; lia.
Qed.

Lemma bs_loop_high_target (cache : list (Vector3 R)) (ct : list R) (value : R)
    (n : Z) :
  (forall i, (0 <= i <= n)%Z -> at_ ct i 0 < value) ->
  forall fuel start end_,
  (0 <= start <= end_)%Z -> (end_ <= n)%Z -> (start < n)%Z ->
  bs_loop fuel cache ct value start end_ = None.
Proof.
  intros Hhigh. induction fuel as [|fuel IH]; intros start end_ Hs He Hn;
    [reflexivity|].
  cbn [bs_loop].
  destruct (Z.leb_spec start end_) as [_|Hlt]; [|lia].
  cbn [feqb fltb fleb RScalar of_Z].
  destruct (middle_inside start end_ ltac:(lia)) as [Hm Hm'].
  assert (H1 : R_leb value (at_ ct (start + 1) 0) = false).
  { apply R_leb_false. apply Hhigh. lia. }
  rewrite H1, andb_false_r.
  assert (H2 : R_leb value (at_ ct (start + Z.quot (end_ - start) 2) 0) = false).
  { apply R_leb_false. apply Hhigh. lia. }
  rewrite H2. apply IH; lia.
Qed.

(** X17. A target outside the table makes [BinarySearch] loop for ever,
    it does not return the zero vector: for [n >= 1], when the target is at
    or below every table entry [ctable[0..n]] (a target [<= 0] on a table
    of non-negative sums), or above every one of them, the search is still
    in its loop after any number of iterations. *)
Theorem BinarySearch_out_of_range
    (cache : list (Vector3 R)) (ct : list R) (value : R) (n : Z) (fuel : nat) :
  (1 <= n)%Z ->
  (forall i, (0 <= i <= n)%Z -> value <= at_ ct i 0) \/
  (forall i, (0 <= i <= n)%Z -> at_ ct i 0 < value) ->
  BinarySearch fuel cache ct value n = None.
Proof.
  intros Hn [Hlow|Hhigh]; unfold BinarySearch.
  - apply (bs_loop_low_target cache ct value n Hlow); lia.
  - apply (bs_loop_high_target cache ct value n Hhigh); lia.
Qed.

(** *** A draw of 0 for the cumulative target *)

Lemma running_nonneg (ws : list R) :
  Forall (fun w => 0 <= w) ws ->
  forall c i, 0 <= c -> 0 <= nth i (c :: running c ws) 0.
Proof.
  induction ws as [|w ws IH]; intros Hpos c i Hc.
  - destruct i as [|[|i]]; cbn; lra.
  - inversion Hpos as [|? ? Hw Hws]; subst.
    destruct i as [|i]; [exact Hc|].
    change (nth (S i) (c :: running c (w :: ws)) 0)
      with (nth i ((c + w) :: running (c + w) ws) 0).
    apply IH; [exact Hws | lra].
Qed.

Lemma RandomFloat_zero_draw (b0 : R) (s : Rng) :
  draws s = 0%Z -> RandomFloat 0 b0 s = (0, S s).
Proof.
  intros H. unfold RandomFloat, rand. rewrite H. cbn. f_equal.
  unfold Rdiv. ring.
Qed.

(** X18. In the discrete regime ([0 < n < 1000], [wo.z != 0]), if
    [rand()] returns 0 at the draw of the cumulative target (the draw
    after the [2 n] draws of the cache), the target is 0, no table entry is
    below it, and [Sample_f] never returns: it is still inside
    [BinarySearch] after any number of iterations. *)
Theorem Sample_f_hangs_on_zero_draw b wo u has_pdf s fuel :
  R_eqb (vz wo) 0 = false ->
  (0 < flakenumber b < 1000)%Z ->
  draws (s + 2 * Z.to_nat (flakenumber b))%nat = 0%Z ->
  Sample_f fuel b wo u has_pdf s = None.
Proof.
  intros Hz Hn Hdraw. unfold Sample_f, Sample_f_trace.
  change (feqb (vz wo) (of_Z 0)) with (R_eqb (vz wo) 0). rewrite Hz.
  assert (H0 : (flakenumber b <=? 0)%Z = false) by (apply Z.leb_gt; lia).
  assert (H1 : (flakenumber b <? 1000)%Z = true) by (apply Z.ltb_lt; lia).
  rewrite H0, CreateReflectionCache_entries. cbv zeta.
  rewrite H1. cbn [snd ctable rcache of_Z RScalar].
  rewrite (RandomFloat_zero_draw _ _ Hdraw).
  assert (Hbs : forall cache,
            BinarySearch fuel cache
              (0 :: running 0 (map e_weight
                                 (entries (Z.to_nat (flakenumber b)) wo s)))
              0 (flakenumber b) = None).
  { intros cache. unfold BinarySearch. apply bs_loop_below; [|lia].
    intros i. unfold at_.
    apply running_nonneg; [apply entries_weight_nonneg | lra]. }
  rewrite Hbs. reflexivity.
Qed.

(** *** Directions outside every cone *)

(** X10. In exact arithmetic [f] returns zero scattering, in the discrete
    and in the continuous regime alike, whenever none of the [n] reflected
    directions of the cache built for the call lies within the cone of
    half-angle [gamma] around [wi] ([Dot(wi, r) < cos(gamma)] for each). *)
Theorem f_zero_outside_cones b wo wi s :
  (forall i, (0 <= i < flakenumber b)%Z ->
     Dot wi (at_ (rcache (fst (CreateReflectionCache wo emptyCache
                                 (flakenumber b) s))) i vzero)
     < cos (gamma b)) ->
  fst (f b wo wi s) = sZero.
Proof.
  intros Hout.
  assert (He : fst (estimate b wo wi s) = 0 / 100000000).
  { unfold estimate, CalculateDistribution. cbv zeta. cbn [fst].
    rewrite dist_loop_outside; [reflexivity | lia |].
    intros j Hj. apply R_leb_false. apply Hout. lia. }
  destruct (passes_guards b wo wi s) eqn:Hg.
  - exfalso. unfold passes_guards in Hg.
    apply andb_prop in Hg. destruct Hg as [_ Hg].
    apply negb_true_iff in Hg. apply orb_false_elim in Hg.
    destruct Hg as [_ Hg]. rewrite He in Hg.
    apply R_eqb_false in Hg. apply Hg. cbn. lra.
  - exact (proj2 (f_trace_guarded b wo wi s Hg)).
Qed.

(** *** The estimate and the width of the cone *)

Lemma dist_loop_monotone (wi : Vector3 R) ws rc (g1 g2 : R) :
  Forall (fun w => 0 <= w) ws ->
  cos g2 <= cos g1 ->
  forall k i D1 D2, (0 <= i)%Z -> (Z.to_nat i + k <= length ws)%nat ->
  D1 <= D2 ->
  dist_loop k wi ws rc g1 i D1 <= dist_loop k wi ws rc g2 i D2.
Proof.
  intros Hpos Hcos. induction k as [|k IH]; intros i D1 D2 Hi Hk HD;
    [exact HD|].
  cbn [dist_loop]. apply IH; [lia | lia |].
  assert (Hw : 0 <= at_ ws i 0).
  { unfold at_. apply (proj1 (Forall_nth _ ws) Hpos). lia. }
  cbn [fleb fcos fadd of_Z RScalar].
  destruct (R_leb (cos g1) (Dot wi (at_ rc i vzero))) eqn:H1;
    destruct (R_leb (cos g2) (Dot wi (at_ rc i vzero))) eqn:H2; try lra.
  apply R_leb_true in H1. apply R_leb_false in H2. lra.
Qed.

(** X19. In exact arithmetic, on non-negative weights, the raw estimate of
    [CalculateDistribution] is non-negative and can only grow when the
    cone is widened (a smaller [cos gamma]). *)
Theorem CalculateDistribution_monotone (wi : Vector3 R) ws rc n (g1 g2 : R) :
  Forall (fun w => 0 <= w) ws ->
  (Z.to_nat n <= length ws)%nat ->
  cos g2 <= cos g1 ->
  0 <= snd (CalculateDistribution wi ws rc n g1)
    <= snd (CalculateDistribution wi ws rc n g2).
Proof.
  intros Hpos Hlen Hcos. unfold CalculateDistribution. cbv zeta. cbn [snd].
  split.
  - pose proof (dist_loop_bounds wi ws rc g1 0 Hpos (Z.to_nat n) 0%Z 0
                  ltac:(lia) ltac:(lia)) as [Hlo _].
    exact Hlo.
  - apply dist_loop_monotone; try assumption; try lia.
    cbn. lra.
Qed.

End MoreRealFacts.

(** ** Further instances at concrete inputs *)

Lemma Sample_f_degenerate_witness :
  Sample_f_trace (E := maxEnv) 7 (standIn 5 0 up) (Vec 1 0 0) (Pt2 0 0) true 0%nat
  = (SampleDegenerate, Some (mkSample sZero None None, 0%nat)).
Proof.
  apply (Sample_f_degenerate (E := maxEnv) (standIn 5 0 up) (Vec 1 0 0)
           (Pt2 0 0) true 7%nat 0%nat).
  left. apply R_eqb_true. reflexivity.
Defined.

Lemma Sample_f_continuous_returns_witness :
  exists r s',
    Sample_f (E := maxEnv) 0 (standIn 1000 0 up) up (Pt2 0 0) true 0%nat
      = Some (r, s') /\
    s_wi r = Some (Reflect up up) /\
    (SameHemisphere up (Reflect up up) = false ->
     s_value r = sZero /\ s_pdf r = None) /\
    (SameHemisphere up (Reflect up up) = true ->
     s_pdf r <> None /\
     exists s0, s_value r =
       fst (f (E := maxEnv) (standIn 1000 0 up) up (Reflect up up) s0)).
Proof.
  apply (Sample_f_continuous_returns (E := maxEnv) (standIn 1000 0 up) up
           (Pt2 0 0) 0%nat 0%nat).
  - exact up_not_horizontal.
  - cbn. lia.
Defined.

Lemma Pdf_degenerate_zero_witness :
  fst (Pdf (E := maxEnv) (standIn 5 0 up) up (Vec 0 0 (-1)) 0%nat) = 0.
Proof.
  refine (Pdf_degenerate_zero (E := maxEnv) (standIn 5 0 up) up (Vec 0 0 (-1))
            0%nat _).
  left. unfold SameHemisphere. apply R_ltb_false. cbn. lra.
Defined.

Lemma SameHemisphere_up_tilt : SameHemisphere up tilt = true.
Proof. unfold SameHemisphere. apply R_ltb_true. cbn. lra. Qed.

Lemma Pdf_continuous_fallback_witness :
  (Pdf_branch (E := maxEnv) (standIn 3 0 up) up tilt 0%nat = PdfContinuous <->
   (1000 <= 3)%Z \/
   feqb (snd (estimate (E := maxEnv) (standIn 3 0 up) up tilt 0%nat)) 0 = true) /\
  (Pdf_branch (E := maxEnv) (standIn 3 0 up) up tilt 0%nat = PdfContinuous ->
   fst (Pdf (E := maxEnv) (standIn 3 0 up) up tilt 0%nat)
   = Pdf_continuous (standIn 3 0 up) up tilt).
Proof.
  refine (Pdf_continuous_fallback (E := maxEnv) (standIn 3 0 up) up tilt 0%nat
            _ _ _).
  - exact SameHemisphere_up_tilt.
  - cbn. lia.
  - apply R_eqb_true. reflexivity.
Defined.

Lemma CalculateDistribution_cone_cases_witness :
  ((forall i, (0 <= i < 2)%Z ->
      fleb (fcos 0) (Dot up (at_ [up; up] i vzero)) = false) ->
   CalculateDistribution up [1; 2] [up; up] 2 0 = (0 / 100000000, 0)) /\
  ((forall i, (0 <= i < 2)%Z ->
      fleb (fcos 0) (Dot up (at_ [up; up] i vzero)) = true) ->
   snd (CalculateDistribution up [1; 2] [up; up] 2 0) = total [1; 2]).
Proof.
  refine (CalculateDistribution_cone_cases (SF := RScalar) up [1; 2] [up; up]
            2%Z 0 _).
  reflexivity.
Defined.

Lemma GenerateBRDFi_first_accepted_witness :
  fleb (fcos 0) (Dot up up) = true /\
  exists k, (k < 1)%nat /\ 2%nat = (0 + 2 * S k)%nat /\
    up = Normalize (fst (RandomVector (E := maxEnv) (0 + 2 * k)%nat)) /\
    forall j, (j < k)%nat ->
      fleb (fcos 0)
           (Dot (Normalize (fst (RandomVector (E := maxEnv) (0 + 2 * j)%nat))) up)
      = false.
Proof.
  refine (GenerateBRDFi_first_accepted (E := maxEnv) 1%nat up 0 0%nat up 2%nat
            _).
  apply GenerateBRDFi_max.
Defined.

Lemma GenerateBRDFi_starves_witness :
  GenerateBRDFi (E := maxEnv) 1000 (Vec 0 0 (-1)) 0 0%nat = None.
Proof.
  refine (GenerateBRDFi_starves (E := maxEnv) (Vec 0 0 (-1)) 0 0%nat 1000%nat _).
  intros k. rewrite RandomVector_max. cbn [fst].
  rewrite (Normalize_unit up Dot_up_up).
  apply R_leb_false. cbn [fcos RScalar]. rewrite cos_0, Dot_R. cbn. lra.
Defined.

Lemma BinarySearch_sound_witness :
  exists i, (0 <= i < 3)%Z /\ up = at_ (repeat up 3) i vzero /\
    fltb (at_ (0 :: running 0 (repeat 1 3)) i 0) (0 + 1 + 1 + 1) = true /\
    fleb (0 + 1 + 1 + 1) (at_ (0 :: running 0 (repeat 1 3)) (i + 1) 0) = true.
Proof.
  refine (BinarySearch_sound (SF := RScalar) 3%nat (repeat up 3)
            (0 :: running 0 (repeat 1 3)) (0 + 1 + 1 + 1) 3%Z up _ _).
  - lia.
  - exact BinarySearch_max.
Defined.

Lemma Sample_f_discrete_in_cone_witness :
  exists r,
    (exists s', Sample_f (E := maxEnv) 3 (standIn 3 0 up) up (Pt2 0 0) true 0%nat
                = Some (r, s')) /\
    exists wi i,
      s_wi r = Some wi /\ (0 <= i < 3)%Z /\
      fleb (fcos 0)
           (Dot wi (at_ (rcache (fst (CreateReflectionCache (E := maxEnv) up
                                        emptyCache 3 0%nat))) i vzero)) = true.
Proof.
  destruct (Sample_f_discrete_max 0 up (Pt2 0 0)) as (r & s' & Hrun & _).
  exists r. split; [exists s'; exact Hrun|].
  refine (Sample_f_discrete_in_cone (E := maxEnv) (standIn 3 0 up) up (Pt2 0 0)
            true 3%nat 0%nat r s' _ _ _).
  - exact up_not_horizontal.
  - cbn. lia.
  - exact Hrun.
Defined.

Lemma RandomFloat_in_range_witness :
  0 <= fst (RandomFloat (E := maxEnv) 0 1 0%nat) <= 1 /\
  (draws (Env := maxEnv) 0%nat = 0%Z ->
   fst (RandomFloat (E := maxEnv) 0 1 0%nat) = 0) /\
  (draws (Env := maxEnv) 0%nat = RAND_MAX (Env := maxEnv) ->
   fst (RandomFloat (E := maxEnv) 0 1 0%nat) = 1).
Proof.
  refine (RandomFloat_in_range (E := maxEnv) 0 1 0%nat _ _ _).
  - cbn. lia.
  - cbn. lia.
  - lra.
Defined.

Lemma RandomVector_on_sphere_witness :
  Dot (fst (RandomVector (E := maxEnv) 0%nat))
      (fst (RandomVector (E := maxEnv) 0%nat)) = 1 /\
  vz (fst (RandomVector (E := maxEnv) 0%nat))
  = -1 + IZR (draws (Env := maxEnv) 1%nat) / IZR (RAND_MAX (Env := maxEnv)) * 2.
Proof.
  refine (RandomVector_on_sphere (E := maxEnv) 0%nat _ _).
  - cbn. lia.
  - cbn. lia.
Defined.

Lemma CreateReflectionCache_entry_geometry_witness :
  let ch := fst (CreateReflectionCache (E := maxEnv) up emptyCache 3 0%nat) in
  let m := at_ (normals ch) 0 vzero in
  let r := at_ (rcache ch) 0 vzero in
  let w := at_ (weights ch) 0 0 in
  Dot m m = 1 /\
  (r = Reflect up m \/ r = vscale (Reflect up m) (-1)) /\
  Dot r r = Dot up up /\
  0 <= vz up * vz r /\
  w = Rabs (Dot up m).
Proof.
  refine (CreateReflectionCache_entry_geometry (E := maxEnv) up 3%Z 0%nat 0%Z _).
  lia.
Defined.

Lemma table_012_monotone a b :
  (0 <= a <= b)%Z -> (b <= 2)%Z -> at_ [0; 1; 2] a 0 <= at_ [0; 1; 2] b 0.
Proof.
  intros Ha Hb. unfold at_.
  assert (Ha' : Z.to_nat a = 0%nat \/ Z.to_nat a = 1%nat \/ Z.to_nat a = 2%nat)
    by lia.
  assert (Hb' : Z.to_nat b = 0%nat \/ Z.to_nat b = 1%nat \/ Z.to_nat b = 2%nat)
    by lia.
  destruct Ha' as [Ha'|[Ha'|Ha']], Hb' as [Hb'|[Hb'|Hb']];
    rewrite Ha', Hb'; cbn; try lra; lia.
Qed.

Lemma BinarySearch_selects_witness :
  BinarySearch 2 [up; Vec 1 0 0] [0; 1; 2] 2 2 = Some (at_ [up; Vec 1 0 0] 1 vzero).
Proof.
  refine (BinarySearch_selects [up; Vec 1 0 0] [0; 1; 2] 2 2%Z 1%Z 2%nat
            _ _ _ _).
  - exact table_012_monotone.
  - lia.
  - unfold at_. simpl. lra.
  - simpl. lia.
Defined.

Lemma BinarySearch_out_of_range_witness :
  BinarySearch 1000 [up] [0; 1] 2 1 = None.
Proof.
  refine (BinarySearch_out_of_range [up] [0; 1] 2 1%Z 1000%nat _ _).
  - lia.
  - right. intros i Hi. unfold at_.
    destruct (Z.to_nat i) as [|[|[|k]]]; cbn; lra.
Defined.

Lemma Sample_f_hangs_on_zero_draw_witness :
  Sample_f (E := minEnv) 1000 (standIn 3 0 up) up (Pt2 0 0) true 0%nat = None.
Proof.
  refine (Sample_f_hangs_on_zero_draw (E := minEnv) (standIn 3 0 up) up
            (Pt2 0 0) true 0%nat 1000%nat _ _ _).
  - exact up_not_horizontal.
  - cbn. lia.
  - reflexivity.
Defined.

Lemma CalculateDistribution_monotone_witness :
  0 <= snd (CalculateDistribution up [1; 2] [up; tilt] 2 0)
    <= snd (CalculateDistribution up [1; 2] [up; tilt] 2 Rtrigo1.PI).
Proof.
  refine (CalculateDistribution_monotone up [1; 2] [up; tilt] 2%Z 0 Rtrigo1.PI
            _ _ _).
  - repeat constructor; lra.
  - simpl. lia.
  - rewrite cos_PI, cos_0. lra.
Defined.

Lemma f_zero_outside_cones_witness :
  fst (f (E := maxEnv) (standIn 1000 0 up) up tilt 0%nat) = sZero.
Proof.
  refine (f_zero_outside_cones (E := maxEnv) (standIn 1000 0 up) up tilt
            0%nat _).
  intros i Hi. rewrite CreateReflectionCache_max.
  cbn [fst rcache flakenumber gamma standIn] in *. unfold at_.
  rewrite nth_repeat_lt by lia. rewrite cos_0, Dot_R. cbn. lra.
Defined.

(** *** A cone so narrow that its cosine rounds to 1 *)







(** * The density reported with a non-zero sample *)

Section SampleDensity.

Context {E : Env R}.

Local Open Scope R_scope.






End SampleDensity.

(** * Runs with a generator that is at [RAND_MAX] where it matters *)

Section RunsAtMax.

Context {E : Env R}.

Local Open Scope R_scope.

Hypothesis RAND_MAX_positive : (0 < RAND_MAX)%Z.







End RunsAtMax.

(** * A discrete sample whose density is zero *)










